(** * Double pendulum: the simulation core of [src/services/physicsEngine.ts]
      and of the frame driver in [src/App.tsx]

    A TypeScript [number] is an IEEE 754 binary64 value, so the embedding
    uses Rocq's primitive [float] (binary64, round to nearest even, one NaN):
    every [+ - * /] below is the operation the engine executes, in the order
    the source writes it.

    [Math.sin], [Math.cos], [Number.prototype.toFixed] and [Number(string)]
    belong to the JavaScript host, not to the repository.  ECMAScript leaves
    the trigonometric functions implementation-approximated, so the engine is
    parameterised by them (class [JSMath]); the only values the standard fixes
    and that are used below are [Math.sin(+0) = +0] and [Math.cos(+0) = 1].

    The file has three parts: the definitions (the embedding, then the
    predicates and inputs the statements use), facts about binary64
    arithmetic, and the theorems. *)

From Stdlib Require Import Floats ZArith List Bool Lia.
From Stdlib Require Uint63 String.
Import ListNotations.

#[local] Set Warnings "-inexact-float".
#[local] Open Scope float_scope.

(** * Part I: definitions *)

(** ** Data model ([src/types.ts]) *)

Record PendulumState := mkState {
  theta1 : float;
  omega1 : float;
  theta2 : float;
  omega2 : float;
  time   : float
}.

Record PendulumConfig := mkConfig {
  L1 : float;
  L2 : float;
  m1 : float;
  m2 : float;
  g  : float;
  damping : float
}.

Module HistoryPoint.
Record t := mk {
  time   : float;
  theta1 : float;
  theta2 : float
}.
End HistoryPoint.

(** ** The JavaScript host *)

Class JSMath := {
  Math_sin : float -> float;
  Math_cos : float -> float
}.

(** What ECMAScript (Math.sin, Math.cos) fixes at [+0]. *)
Definition es_trig (M : JSMath) : Prop :=
  @Math_sin M 0 = 0 /\ @Math_cos M 0 = 1.

Class JSNumber := {
  toFixed : float -> nat -> String.string;
  Number  : String.string -> float
}.

(** [Math.PI], the double nearest to pi. *)
Definition Math_PI : float := 0x1.921fb54442d18p+1.

(** [Math.min(a, b)]: NaN if either argument is NaN, and [-0] below [+0]. *)
Definition Math_min (a b : float) : float :=
  if is_nan a || is_nan b then nan
  else if a <? b then a
  else if b <? a then b
  else if is_zero a && get_sign a then a
  else b.

(** Exact conversion of an integer of magnitude below 2^53 to a double. *)
Definition float_of_Z (n : Z) : float :=
  match n with
  | Z0 => 0
  | Zpos _ => of_uint63 (Uint63Axioms.of_Z n)
  | Zneg p => - of_uint63 (Uint63Axioms.of_Z (Zpos p))
  end.

(** A small loop bound read as a [number]. *)
Definition float_of_nat (n : nat) : float := float_of_Z (Z.of_nat n).

(** [Math.floor(x)]: the largest integer not above [x]; NaN, the infinities
    and both zeros are returned as they are, and so is any double whose
    exponent makes it an integer already. *)
Definition Math_floor (x : float) : float :=
  match Prim2SF x with
  | S754_finite s m (Zneg k) =>
      let q := Z.shiftr (Zpos m) (Zpos k) in
      let exact := Z.eqb (Z.shiftl q (Zpos k)) (Zpos m) in
      if s then
        (if exact then float_of_Z (- q) else float_of_Z (- (q + 1)))
      else float_of_Z q
  | _ => x
  end.

(** [a[i]] on a [number[]]; past the end JavaScript yields [undefined],
    which every arithmetic operator reads as NaN. *)
Definition idx (a : list float) (i : nat) : float := nth i a nan.

(** [a.map((v, i) => f v i)]. *)
Fixpoint map_from (f : float -> nat -> float) (i : nat) (a : list float)
  : list float :=
  match a with
  | [] => []
  | v :: r => f v i :: map_from f (S i) r
  end.

Definition map_i (f : float -> nat -> float) (a : list float) : list float :=
  map_from f 0 a.

(** [a.slice(-n)]: the last [n] elements, all of them when there are fewer. *)
Definition slice_last (n : nat) {A : Type} (a : list A) : list A :=
  skipn (length a - n)%nat a.

(** [for (let i = 0; i < n; i++) current = body(current)]. *)
Fixpoint for_loop {A : Type} (n : nat) (body : A -> A) (current : A) : A :=
  match n with
  | O => current
  | S n' => for_loop n' body (body current)
  end.

(** ** [PhysicsEngine] ([src/services/physicsEngine.ts]) *)

Section PhysicsEngine.
Context {M : JSMath}.

(** [static derivatives(state: number[], config)], lines 9-34. *)
Definition derivatives (state : list float) (config : PendulumConfig)
  : list float :=
  let t1 := idx state 0 in
  let w1 := idx state 1 in
  let t2 := idx state 2 in
  let w2 := idx state 3 in
  let '(mkConfig L1 L2 m1 m2 g damping) := config in
  let delta := t1 - t2 in
  let den := 2 * m1 + m2 - m2 * Math_cos (2 * t1 - 2 * t2) in
  let a1 :=
    ((- g) * (2 * m1 + m2) * Math_sin t1
     - m2 * g * Math_sin (t1 - 2 * t2)
     - 2 * Math_sin delta * m2
       * (w2 * w2 * L2 + w1 * w1 * L1 * Math_cos delta))
    / (L1 * den) in
  let a2 :=
    (2 * Math_sin delta
     * (w1 * w1 * L1 * (m1 + m2)
        + g * (m1 + m2) * Math_cos t1
        + w2 * w2 * L2 * m2 * Math_cos delta))
    / (L2 * den) in
  let dampedA1 := a1 - damping * w1 in
  let dampedA2 := a2 - damping * w2 in
  [w1; dampedA1; w2; dampedA2].

(** [static rk4(state, config, dt)], lines 39-56. *)
Definition rk4 (state : PendulumState) (config : PendulumConfig)
  (dt : float) : PendulumState :=
  let y := [theta1 state; omega1 state; theta2 state; omega2 state] in
  let k1 := derivatives y config in
  let k2 := derivatives (map_i (fun v i => v + idx k1 i * dt / 2) y) config in
  let k3 := derivatives (map_i (fun v i => v + idx k2 i * dt / 2) y) config in
  let k4 := derivatives (map_i (fun v i => v + idx k3 i * dt) y) config in
  let nextY :=
    map_i (fun v i =>
             v + (dt / 6) * (idx k1 i + 2 * idx k2 i + 2 * idx k3 i + idx k4 i))
          y in
  {| theta1 := idx nextY 0;
     omega1 := idx nextY 1;
     theta2 := idx nextY 2;
     omega2 := idx nextY 3;
     time   := time state + dt |}.

End PhysicsEngine.

(** ** The frame driver ([src/App.tsx]) *)

Definition INITIAL_CONFIG : PendulumConfig :=
  {| L1 := 1.2; L2 := 1.0; m1 := 1.5; m2 := 1.0; g := 9.81; damping := 0.02 |}.

Definition INITIAL_STATE : PendulumState :=
  {| theta1 := Math_PI / 3;
     omega1 := 0;
     theta2 := Math_PI / 4;
     omega2 := 0;
     time   := 0 |}.

(** The component's React state ([useState]) and the [lastTimeRef] ref.
    [requestRef] only holds the handle of the pending animation frame and is
    left to the scheduler. *)
Record App := mkApp {
  config      : PendulumConfig;
  state       : PendulumState;
  isRunning   : bool;
  history     : list HistoryPoint.t;
  lastTimeRef : option float
}.

(** The freshly mounted component. *)
Definition initialApp : App :=
  {| config := INITIAL_CONFIG;
     state := INITIAL_STATE;
     isRunning := false;
     history := [];
     lastTimeRef := None |}.

(** [resetState], lines 34-38. *)
Definition resetState (a : App) : App :=
  {| config := config a;
     state := INITIAL_STATE;
     isRunning := isRunning a;
     history := [];
     lastTimeRef := None |}.

(** The two setters handed to [Controls]. *)
Definition setConfig (c : PendulumConfig) (a : App) : App :=
  {| config := c; state := state a; isRunning := isRunning a;
     history := history a; lastTimeRef := lastTimeRef a |}.

Definition setIsRunning (b : bool) (a : App) : App :=
  {| config := config a; state := state a; isRunning := b;
     history := history a; lastTimeRef := lastTimeRef a |}.

Section Driver.
Context {M : JSMath} {N : JSNumber}.

(** [const subSteps = 10], line 62. *)
Definition subSteps : nat := 10.

(** [Math.min((time - lastTimeRef.current) / 1000, 0.032)], line 61. *)
Definition frame_dt (timestamp last : float) : float :=
  Math_min ((timestamp - last) / 1000) 0.032.

(** [dt / subSteps], line 63. *)
Definition sub_dt (timestamp last : float) : float :=
  frame_dt timestamp last / float_of_nat subSteps.

(** The sub-steps of lines 66-69. *)
Definition integrate (prevState : PendulumState) (config : PendulumConfig)
  (subDt : float) : PendulumState :=
  for_loop subSteps (fun current => rk4 current config subDt) prevState.

(** The sampling test of line 71; [a > b] is [b < a]. *)
Definition crossed_bucket (current prevState : PendulumState) : bool :=
  Math_floor (time prevState * 20) <? Math_floor (time current * 20).

(** [newPoint], lines 73-77. *)
Definition newPoint (current : PendulumState) : HistoryPoint.t :=
  {| HistoryPoint.time := Number (toFixed (time current) 2);
     HistoryPoint.theta1 :=
       Number (toFixed (theta1 current * 180 / Math_PI) 1);
     HistoryPoint.theta2 :=
       Number (toFixed (theta2 current * 180 / Math_PI) 1) |}.

(** The [setHistory] updater of lines 72-80. *)
Definition pushHistory (prev : list HistoryPoint.t)
  (current : PendulumState) : list HistoryPoint.t :=
  slice_last 100 (prev ++ [newPoint current]).

(** [update(time)], lines 59-88: one animation frame.  The parameter is
    called [timestamp] here because [time] is the state's field. *)
Definition update (timestamp : float) (a : App) : App :=
  match lastTimeRef a with
  | Some last =>
      if isRunning a then
        let subDt := sub_dt timestamp last in
        let prevState := state a in
        let current := integrate prevState (config a) subDt in
        {| config := config a;
           state := current;
           isRunning := isRunning a;
           history :=
             if crossed_bucket current prevState
             then pushHistory (history a) current
             else history a;
           lastTimeRef := Some timestamp |}
      else
        {| config := config a; state := state a; isRunning := isRunning a;
           history := history a; lastTimeRef := Some timestamp |}
  | None =>
      {| config := config a; state := state a; isRunning := isRunning a;
         history := history a; lastTimeRef := Some timestamp |}
  end.

End Driver.

(** ** The component as a transition system

    What can happen to the component: the scheduler delivers a frame, or the
    user presses reset, moves a slider, or toggles the run button. *)

Inductive Event :=
| Frame (timestamp : float)
| Reset
| SetConfig (c : PendulumConfig)
| SetIsRunning (b : bool).

Section Transitions.
Context {M : JSMath} {N : JSNumber}.

Definition handle (e : Event) (a : App) : App :=
  match e with
  | Frame timestamp => update timestamp a
  | Reset => resetState a
  | SetConfig c => setConfig c a
  | SetIsRunning b => setIsRunning b a
  end.

Definition run (es : list Event) (a : App) : App :=
  fold_left (fun a e => handle e a) es a.

(** A run of frames only. *)
Definition frames (ts : list float) (a : App) : App :=
  fold_left (fun a t => update t a) ts a.

End Transitions.

(** ** The spec's closed form of the accelerations (spec section 4.1),
       written as the spec writes it *)

Section ClosedForm.
Context {M : JSMath}.
Variable cfg : PendulumConfig.
Variables th1 om1 th2 om2 : float.

Definition sq (x : float) : float := x * x.

Definition spec_delta : float := th1 - th2.

Definition spec_den : float :=
  2 * m1 cfg + m2 cfg - m2 cfg * Math_cos (2 * th1 - 2 * th2).

Definition spec_a1 : float :=
  (- g cfg * (2 * m1 cfg + m2 cfg) * Math_sin th1
   - m2 cfg * g cfg * Math_sin (th1 - 2 * th2)
   - 2 * Math_sin spec_delta * m2 cfg
     * (sq om2 * L2 cfg + sq om1 * L1 cfg * Math_cos spec_delta))
  / (L1 cfg * spec_den).

Definition spec_a2 : float :=
  (2 * Math_sin spec_delta
   * (sq om1 * L1 cfg * (m1 cfg + m2 cfg)
      + g cfg * (m1 cfg + m2 cfg) * Math_cos th1
      + sq om2 * L2 cfg * m2 cfg * Math_cos spec_delta))
  / (L2 cfg * spec_den).

End ClosedForm.

(** ** Predicates the statements use *)

(** The state as the vector [rk4] integrates. *)
Definition vec (st : PendulumState) : list float :=
  [theta1 st; omega1 st; theta2 st; omega2 st].

(** The test for negative zero, [Object.is(x, -0)]. *)
Definition is_neg_zero (x : float) : bool := is_zero x && get_sign x.

(** No field of the state is a negative zero. *)
Definition no_neg_zero (st : PendulumState) : bool :=
  forallb (fun x => negb (is_neg_zero x)) (time st :: vec st).

(** The weighted sum of [rk4], with the evaluator's output [k] at the state
    in all four places, is finite in every channel. *)
Definition finite_sums {M : JSMath} (st : PendulumState)
  (cfg : PendulumConfig) : bool :=
  forallb (fun k => is_finite (k + 2 * k + 2 * k + k))
          (derivatives (vec st) cfg).

(** The rest position: both angles and both angular velocities [+0]. *)
Definition rest : list float := [0; 0; 0; 0].

Definition at_rest (st : PendulumState) : Prop := vec st = rest.

(** The evaluator returns no NaN at the rest position. *)
Definition rest_regular {M : JSMath} (cfg : PendulumConfig) : bool :=
  forallb (fun k => negb (is_nan k)) (derivatives rest cfg).

(** Every frame of [ts] that finds an anchor ([last], then the frame before)
    sees a finite elapsed time [timestamp - anchor]. *)
Fixpoint steady_frames (last : option float) (ts : list float) : bool :=
  match ts with
  | [] => true
  | t :: r =>
      match last with
      | Some l => is_finite (t - l)
      | None => true
      end && steady_frames (Some t) r
  end.

(** A value that is a zero (of either sign) or NaN. *)
Definition zn (x : float) : bool := is_zero x || is_nan x.

(** Classes of a [spec_float], the specification's view of a double. *)
Definition sf_is_zero (x : spec_float) : bool :=
  match x with S754_zero _ => true | _ => false end.

Definition sf_is_nan (x : spec_float) : bool :=
  match x with S754_nan => true | _ => false end.

Definition sf_is_finite (x : spec_float) : bool :=
  match x with S754_zero _ | S754_finite _ _ _ => true | _ => false end.

Definition sf_zn (x : spec_float) : bool :=
  match x with S754_zero _ | S754_nan => true | _ => false end.

(** ** A reference host and concrete inputs

    Truncated Taylor polynomials standing in for the host's [Math.sin] and
    [Math.cos]; they take the values ECMAScript fixes at [+0] and let the
    model run on concrete inputs. *)

Definition taylor_sin (x : float) : float :=
  let x2 := x * x in
  x * (1 - x2 / 6 * (1 - x2 / 20 * (1 - x2 / 42 * (1 - x2 / 72 *
      (1 - x2 / 110 * (1 - x2 / 156)))))).

Definition taylor_cos (x : float) : float :=
  let x2 := x * x in
  1 - x2 / 2 * (1 - x2 / 12 * (1 - x2 / 30 * (1 - x2 / 56 *
      (1 - x2 / 90 * (1 - x2 / 132))))).

Definition taylorMath : JSMath :=
  {| Math_sin := taylor_sin; Math_cos := taylor_cos |}.

(** A host whose number formatting is trivial, for running frames in which
    the formatted values play no part. *)
Definition nullNumber : JSNumber :=
  {| toFixed := fun _ _ => String.EmptyString; Number := fun _ => 0 |}.

(** At rest in angle, with a first angular velocity whose square
    overflows. *)
Definition fast_state : PendulumState :=
  {| theta1 := 0; omega1 := 1e200; theta2 := 0; omega2 := 0; time := 0 |}.

(** At rest, with the clock at negative zero. *)
Definition neg_clock_state : PendulumState :=
  {| theta1 := 0; omega1 := 0; theta2 := 0; omega2 := 0; time := -0 |}.

Definition rest_state : PendulumState :=
  {| theta1 := 0; omega1 := 0; theta2 := 0; omega2 := 0; time := 0 |}.

(** Positive lengths and masses, but a first bob so light that
    [2*m1 + m2] rounds to [m2]: the evaluator's denominator is 0 at rest. *)
Definition light_config : PendulumConfig :=
  {| L1 := 1.2; L2 := 1.0; m1 := 1e-20; m2 := 1.0; g := 9.81;
     damping := 0.02 |}.

(** ** The energy read-out ([src/App.tsx], lines 40-57)

    [x ** 2] is the host's exponentiation, implementation-approximated like
    the trigonometric functions; ECMAScript fixes its value at a zero base
    with a positive even exponent: [+0]. *)

Class JSPow := {
  exponentiate : float -> float -> float
}.

Definition es_square_zero (P : JSPow) : Prop :=
  @exponentiate P 0 2 = 0 /\ @exponentiate P (-0) 2 = 0.

Record Energy := mkEnergy {
  pe    : float;
  ke    : float;
  total : float
}.

Section EnergyReadout.
Context {M : JSMath} {P : JSPow}.

(** The [useMemo] body of lines 40-57. *)
Definition energy (config : PendulumConfig) (state : PendulumState)
  : Energy :=
  let '(mkConfig L1 L2 m1 m2 g _) := config in
  let '(mkState theta1 omega1 theta2 omega2 _) := state in
  let pe1 := - m1 * g * L1 * Math_cos theta1 in
  let pe2 := - m2 * g * (L1 * Math_cos theta1 + L2 * Math_cos theta2) in
  let pe := pe1 + pe2 in
  let ke1 := 0.5 * m1 * exponentiate (L1 * omega1) 2 in
  let ke2 :=
    0.5 * m2
    * (exponentiate (L1 * omega1) 2
       + exponentiate (L2 * omega2) 2
       + 2 * L1 * L2 * omega1 * omega2 * Math_cos (theta1 - theta2)) in
  let ke := ke1 + ke2 in
  {| pe := pe; ke := ke; total := pe + ke |}.

End EnergyReadout.

(** The width, in percent, of an energy bar:
    [Math.min(100, Math.abs(energy.pe) * 2)], lines 153 and 166. *)
Definition bar_width (e : float) : float := Math_min 100 (abs e * 2).

(** ** [Controls] ([src/components/Controls.tsx]) *)

Import String.StringSyntax.
#[local] Delimit Scope string_scope with string.

Class JSParse := {
  parseFloat : String.string -> float
}.

(** [{ ...config, [name]: v }] on the six fields of [PendulumConfig]; any
    other key lands beside them, where nothing reads it. *)
Definition set_field (name : String.string) (v : float)
  (config : PendulumConfig) : PendulumConfig :=
  let '(mkConfig L1 L2 m1 m2 g damping) := config in
  if String.eqb name "L1"%string then mkConfig v L2 m1 m2 g damping
  else if String.eqb name "L2"%string then mkConfig L1 v m1 m2 g damping
  else if String.eqb name "m1"%string then mkConfig L1 L2 v m2 g damping
  else if String.eqb name "m2"%string then mkConfig L1 L2 m1 v g damping
  else if String.eqb name "g"%string then mkConfig L1 L2 m1 m2 v damping
  else if String.eqb name "damping"%string then mkConfig L1 L2 m1 m2 g v
  else config.

(** [handleChange], lines 13-19, on the event's [name] and [value]; the
    result is what it hands to [setConfig]. *)
Definition handleChange {Pf : JSParse} (name value : String.string)
  (config : PendulumConfig) : PendulumConfig :=
  set_field name (parseFloat value) config.

(** The run button: [setIsRunning(!isRunning)]. *)
Definition toggleRunning (a : App) : App :=
  setIsRunning (negb (isRunning a)) a.

(** ** [PendulumCanvas] ([src/components/PendulumCanvas.tsx]) *)

Module Point.
Record t := mk {
  x : float;
  y : float
}.
End Point.

(** What the effect reads and writes: the canvas's bitmap size and the
    trace [pathRef.current].  Assigning to [canvas.width] stores the value
    as the DOM converts it to an unsigned long; [canvas_dim] is that
    conversion. *)
Class DOMCanvas := {
  canvas_dim : float -> float
}.

Record Canvas := mkCanvas {
  width   : float;
  height  : float;
  pathRef : list Point.t
}.

Section CanvasEffect.
Context {M : JSMath} {D : DOMCanvas}.

Definition scale : float := 100.

(** The first bob, lines 35-36. *)
Definition bob1 (centerX centerY : float) (config : PendulumConfig)
  (state : PendulumState) : Point.t :=
  {| Point.x := centerX + L1 config * scale * Math_sin (theta1 state);
     Point.y := centerY + L1 config * scale * Math_cos (theta1 state) |}.

(** The second bob, lines 37-38. *)
Definition bob2 (centerX centerY : float) (config : PendulumConfig)
  (state : PendulumState) : Point.t :=
  let b1 := bob1 centerX centerY config state in
  {| Point.x := Point.x b1 + L2 config * scale * Math_sin (theta2 state);
     Point.y := Point.y b1 + L2 config * scale * Math_cos (theta2 state) |}.

(** [a.shift()] on the trace: drops the first element. *)
Definition shift {A : Type} (a : list A) : list A := tl a.

(** The effect of lines 13-95 on a mounted canvas whose bounding rectangle
    is [rect_width] by [rect_height].  The [ctx] calls paint from the values
    computed here and change nothing the effect reads. *)
Definition draw (config : PendulumConfig) (state : PendulumState)
  (rect_width rect_height : float) (c : Canvas) : Canvas :=
  let resized :=
    negb (width c =? rect_width) || negb (height c =? rect_height) in
  let c1 :=
    if resized
    then {| width := canvas_dim rect_width;
            height := canvas_dim rect_height;
            pathRef := [] |}
    else c in
  let centerX := width c1 / 2 in
  let centerY := height c1 / 3 in
  let pushed := pathRef c1 ++ [bob2 centerX centerY config state] in
  {| width := width c1;
     height := height c1;
     pathRef := if (200 <? length pushed)%nat then shift pushed else pushed |}.

(** The canvas after a sequence of renders, each with its config, state and
    bounding rectangle. *)
Definition renders
  (rs : list (PendulumConfig * PendulumState * float * float))
  (c : Canvas) : Canvas :=
  fold_left (fun c r => let '(cfg, st, w, h) := r in draw cfg st w h c) rs c.

End CanvasEffect.

(** The events that only change a control. *)
Definition is_control (e : Event) : bool :=
  match e with
  | SetConfig _ | SetIsRunning _ => true
  | Frame _ | Reset => false
  end.

(** The names the six sliders of [Controls] carry. *)
Definition slider_names : list String.string :=
  ["m1"; "m2"; "L1"; "L2"; "damping"; "g"]%string.

(** Some angle or velocity of the state is NaN. *)
Definition poisoned (s : PendulumState) : bool :=
  is_nan (theta1 s) || is_nan (omega1 s)
  || is_nan (theta2 s) || is_nan (omega2 s).

(** The events other than a reset. *)
Definition no_reset (e : Event) : bool :=
  match e with
  | Reset => false
  | _ => true
  end.

(** ** Inputs of the further statements *)

(** The state all of whose fields are NaN. *)
Definition nan_state : PendulumState :=
  {| theta1 := nan; omega1 := nan; theta2 := nan; omega2 := nan;
     time := nan |}.

(** [x ** y] computed as [x * x]: a stand-in for the host's exponentiation
    at exponent 2. *)
Definition squarePow : JSPow := {| exponentiate := fun x _ => x * x |}.

(** The canvas as it is before the first render of a 300 by 150 bitmap. *)
Definition blankCanvas : Canvas :=
  {| width := 300; height := 150; pathRef := [] |}.

(** A DOM whose bitmap sizes are the integers at or below the requested
    ones (non-negative requests of ordinary size). *)
Definition floorCanvas : DOMCanvas := {| canvas_dim := Math_floor |}.

(** A parser that reads nothing: every field it sets becomes NaN. *)
Definition nullParse : JSParse := {| parseFloat := fun _ => nan |}.

(** * Part II: facts about binary64 arithmetic

    All of them follow from the specification of the primitive operations
    ([FloatAxioms], over [SpecFloat]). *)

(** ** Rounding cannot overflow below 2^1023 *)

Section RoundingBounds.
#[local] Open Scope Z_scope.

Lemma digits2_size p : digits2_pos p = Pos.size p.
Proof. induction p; cbn; congruence. Qed.

Lemma Zdigits2_nonneg m : 0 <= Zdigits2 m.
Proof. destruct m; cbn; lia. Qed.

Lemma Zdigits2_gt m : 0 <= m -> m < 2 ^ Zdigits2 m.
Proof.
  destruct m as [|p|p]; intros H; [reflexivity| |lia].
  change (Zdigits2 (Zpos p)) with (Zpos (digits2_pos p)).
  rewrite digits2_size. pose proof (Pos.size_gt p) as G.
  rewrite <- Pos2Z.inj_pow. lia.
Qed.

Lemma Zdigits2_le m k : 0 <= m -> 0 <= k -> m < 2 ^ k -> Zdigits2 m <= k.
Proof.
  destruct m as [|p|p]; intros Hm Hk H; [exact Hk| |lia].
  change (Zdigits2 (Zpos p)) with (Zpos (digits2_pos p)).
  rewrite digits2_size. pose proof (Pos.size_le p) as G.
  destruct (Z_lt_le_dec k (Zpos (Pos.size p))) as [L|L]; [|exact L].
  exfalso.
  assert (2 ^ k * 2 <= 2 ^ Zpos (Pos.size p)).
  { replace (2 ^ k * 2) with (2 ^ (k + 1)) by (rewrite Z.pow_add_r; lia).
    apply Z.pow_le_mono_r; lia. }
  assert (2 ^ Zpos (Pos.size p) <= 2 * Zpos p).
  { rewrite <- Pos2Z.inj_pow. change (2 * Zpos p) with (Zpos p~0). lia. }
  lia.
Qed.

Lemma Zdigits2_lower m k : 0 <= k -> 2 ^ k <= m -> k < Zdigits2 m.
Proof.
  intros Hk H.
  assert (Hm : 0 <= m) by (pose proof (Z.pow_nonneg 2 k); lia).
  pose proof (Zdigits2_gt m Hm) as G.
  apply (Z.pow_lt_mono_r_iff 2); [lia|apply Zdigits2_nonneg|lia].
Qed.

(** One right shift halves the mantissa. *)
Lemma shr_1_m mrs : 0 <= shr_m mrs -> shr_m (shr_1 mrs) = shr_m mrs / 2.
Proof.
  destruct mrs as [m r s]. cbn [shr_m]. intros H.
  destruct m as [|[p|p|]|p]; cbn [shr_1 shr_m]; try lia.
  - reflexivity.
  - rewrite Pos2Z.inj_xI. apply Z.div_unique with 1; lia.
  - rewrite Pos2Z.inj_xO. apply Z.div_unique with 0; lia.
  - reflexivity.
Qed.

Lemma pow2_xO p : 2 ^ Zpos p~0 = 2 ^ Zpos p * 2 ^ Zpos p.
Proof.
  replace (Zpos p~0) with (Zpos p + Zpos p) by lia.
  apply Z.pow_add_r; lia.
Qed.

Lemma pow2_xI p : 2 ^ Zpos p~1 = 2 * 2 ^ Zpos p * 2 ^ Zpos p.
Proof.
  replace (Zpos p~1) with (1 + Zpos p + Zpos p) by lia.
  rewrite !Z.pow_add_r by lia. reflexivity.
Qed.

Lemma iter_shr_1_m p : forall mrs,
  0 <= shr_m mrs ->
  shr_m (SpecFloat.iter_pos shr_1 p mrs) = shr_m mrs / 2 ^ Zpos p.
Proof.
  induction p as [p IH|p IH|]; intros mrs H; cbn [SpecFloat.iter_pos].
  - assert (H1 : 0 <= shr_m (shr_1 mrs))
      by (rewrite shr_1_m by lia; apply Z.div_pos; lia).
    assert (H2 : 0 <= shr_m (SpecFloat.iter_pos shr_1 p (shr_1 mrs)))
      by (rewrite IH by lia; apply Z.div_pos; lia).
    rewrite IH, IH, shr_1_m by lia.
    rewrite !Z.div_div by lia. rewrite pow2_xI. f_equal. ring.
  - assert (H2 : 0 <= shr_m (SpecFloat.iter_pos shr_1 p mrs))
      by (rewrite IH by lia; apply Z.div_pos; lia).
    rewrite IH, IH by lia.
    rewrite !Z.div_div by lia. rewrite pow2_xO. reflexivity.
  - rewrite shr_1_m by lia. rewrite Z.pow_1_r. reflexivity.
Qed.

(** A right shift by [n] keeps a mantissa below [2^k] below [2^(k-n)]. *)
Lemma shr_m_bound mrs e n :
  0 <= shr_m mrs ->
  0 <= shr_m (fst (shr mrs e n))
  /\ forall k, 0 <= k -> shr_m mrs < 2 ^ k ->
       shr_m (fst (shr mrs e n)) < 2 ^ Z.max 0 (k - Z.max 0 n).
Proof.
  intros H. destruct n as [|p|p]; cbn [shr fst].
  - split; [exact H|]. intros k Hk Hb.
    rewrite Z.max_id, Z.sub_0_r, Z.max_r by lia. exact Hb.
  - rewrite iter_shr_1_m by exact H. split; [apply Z.div_pos; lia|].
    intros k Hk Hb. rewrite (Z.max_r 0 (Zpos p)) by lia.
    destruct (Z_lt_le_dec k (Zpos p)) as [L|L].
    + rewrite Z.max_l by lia. rewrite Z.div_small; [reflexivity|].
      split; [exact H|]. apply Z.lt_le_trans with (2 ^ k); [exact Hb|].
      apply Z.pow_le_mono_r; lia.
    + rewrite Z.max_r by lia. apply Z.div_lt_upper_bound; [lia|].
      rewrite <- Z.pow_add_r by lia.
      replace (Zpos p + (k - Zpos p)) with k by lia. exact Hb.
  - split; [exact H|]. intros k Hk Hb.
    rewrite (Z.max_l 0 (Zneg p)), Z.sub_0_r, Z.max_r by lia. exact Hb.
Qed.

Lemma shr_record_of_loc_m m l : shr_m (shr_record_of_loc m l) = m.
Proof. destruct l as [|[| |]]; reflexivity. Qed.

Lemma fexp_eq x : fexp prec emax x = Z.max (x - 53) (-1074).
Proof. reflexivity. Qed.

Lemma shr_fexp_spec m e l :
  0 <= m ->
  0 <= shr_m (fst (shr_fexp prec emax m e l))
  /\ snd (shr_fexp prec emax m e l)
     = Z.max e (fexp prec emax (Zdigits2 m + e))
  /\ shr_m (fst (shr_fexp prec emax m e l))
     < 2 ^ Z.max 0 (Zdigits2 m + e - snd (shr_fexp prec emax m e l)).
Proof.
  intros Hm. unfold shr_fexp.
  set (n := fexp prec emax (Zdigits2 m + e) - e).
  assert (Hr : 0 <= shr_m (shr_record_of_loc m l))
    by (rewrite shr_record_of_loc_m; exact Hm).
  destruct (shr_m_bound (shr_record_of_loc m l) e n Hr) as [H1 H2].
  assert (Hs : snd (shr (shr_record_of_loc m l) e n) = e + Z.max 0 n)
    by (destruct n; cbn [shr snd]; lia).
  split; [exact H1|]. split; [rewrite Hs; unfold n; lia|].
  rewrite Hs.
  replace (Zdigits2 m + e - (e + Z.max 0 n)) with (Zdigits2 m - Z.max 0 n)
    by lia.
  apply H2; [apply Zdigits2_nonneg|].
  rewrite shr_record_of_loc_m. apply Zdigits2_gt, Hm.
Qed.

Lemma round_nearest_even_bounds m l :
  m <= round_nearest_even m l <= m + 1.
Proof.
  destruct l as [|[| |]]; cbn [round_nearest_even]; try lia.
  destruct (Z.even m); lia.
Qed.

(** Rounding a mantissa whose value stays below 2^1023 gives a finite
    double. *)
Lemma binary_round_aux_finite s m e l :
  0 <= m -> e <= 971 -> Zdigits2 m + e <= 1023 ->
  sf_is_finite (binary_round_aux prec emax s m e l) = true.
Proof.
  intros Hm He Hd. unfold binary_round_aux.
  destruct (shr_fexp_spec m e l Hm) as (P1 & P2 & P3).
  destruct (shr_fexp prec emax m e l) as [mrs' e'].
  cbn [fst snd] in P1, P2, P3.
  pose proof (round_nearest_even_bounds (shr_m mrs') (loc_of_shr_record mrs'))
    as R.
  set (m1 := round_nearest_even (shr_m mrs') (loc_of_shr_record mrs')) in *.
  assert (Hm1 : 0 <= m1) by lia.
  destruct (shr_fexp_spec m1 e' loc_Exact Hm1) as (Q1 & Q2 & _).
  destruct (shr_fexp prec emax m1 e' loc_Exact) as [mrs'' e''].
  cbn [fst snd] in Q1, Q2.
  pose proof (Zdigits2_nonneg m) as Dm.
  assert (D1 : Zdigits2 m1 <= Z.max 0 (Zdigits2 m + e - e') + 1).
  { apply Zdigits2_le; [exact Hm1|lia|].
    rewrite Z.pow_add_r by lia. change (2 ^ 1) with 2. lia. }
  rewrite fexp_eq in P2, Q2.
  destruct (shr_m mrs'') as [|p|p]; [reflexivity| |lia].
  replace (e'' <=? emax - prec) with true; [reflexivity|].
  symmetry. apply Z.leb_le. change (emax - prec) with 971. lia.
Qed.

Lemma valid_finite_bounds s m e :
  SpecFloat.valid_binary prec emax (S754_finite s m e) = true ->
  Zdigits2 (Zpos m) <= 53 /\ e <= 971.
Proof.
  cbn [SpecFloat.valid_binary]. unfold bounded, canonical_mantissa.
  rewrite andb_true_iff, Z.eqb_eq, Z.leb_le, fexp_eq.
  change (emax - prec) with 971. cbn [Zdigits2]. lia.
Qed.

(** Dividing a double by a normal double of magnitude at least 2 cannot
    overflow. *)
Lemma SFdiv_finite sx mx ex sy my ey :
  SpecFloat.valid_binary prec emax (S754_finite sx mx ex) = true ->
  2 ^ 52 <= Zpos my -> -51 <= ey ->
  sf_is_finite
    (SFdiv prec emax (S754_finite sx mx ex) (S754_finite sy my ey)) = true.
Proof.
  intros Hv Hmy Hey. destruct (valid_finite_bounds _ _ _ Hv) as [Hd1 Hex].
  pose proof (Zdigits2_lower (Zpos my) 52 ltac:(lia) Hmy) as Hd2.
  cbn [SFdiv]. unfold SFdiv_core_binary.
  set (d1 := Zdigits2 (Zpos mx)) in *. set (d2 := Zdigits2 (Zpos my)) in *.
  set (e' := Z.min (fexp prec emax (d1 + ex - (d2 + ey))) (ex - ey)).
  set (s := ex - ey - e').
  assert (He' : e' <= 969) by (unfold e'; rewrite fexp_eq; lia).
  assert (Hs : 0 <= s) by (unfold s, e'; lia).
  set (m' := match s with
             | 0 => Zpos mx
             | Zpos _ => Z.shiftl (Zpos mx) s
             | Zneg _ => 0
             end).
  assert (Hm' : m' = Zpos mx * 2 ^ s).
  { unfold m'. destruct s as [|p|p]; [lia| |lia].
    rewrite Z.shiftl_mul_pow2 by lia. reflexivity. }
  assert (Hq : fst (Z.div_eucl m' (Zpos my)) = m' / Zpos my) by reflexivity.
  destruct (Z.div_eucl m' (Zpos my)) as [q r]. cbn [fst] in Hq.
  pose proof (Z.pow_pos_nonneg 2 s ltac:(lia) Hs) as P2s.
  assert (Hq0 : 0 <= q) by (rewrite Hq; apply Z.div_pos; lia).
  apply binary_round_aux_finite; [exact Hq0|lia|].
  assert (Dq : Zdigits2 q <= Z.max 0 (d1 + s - 52)).
  { apply Zdigits2_le; [exact Hq0|lia|].
    pose proof (Zdigits2_gt (Zpos mx) ltac:(lia)) as G. fold d1 in G.
    assert (Hb : m' < 2 ^ (d1 + s)).
    { rewrite Hm', Z.pow_add_r by (unfold d1; cbn; lia). nia. }
    rewrite Hq. apply Z.div_lt_upper_bound; [lia|].
    destruct (Z_lt_le_dec (d1 + s) 52) as [L|L].
    - rewrite Z.max_l by lia. rewrite Z.pow_0_r, Z.mul_1_r.
      apply Z.lt_le_trans with (2 ^ 52); [|exact Hmy].
      apply Z.lt_le_trans with (2 ^ (d1 + s)); [exact Hb|].
      apply Z.pow_le_mono_r; lia.
    - rewrite Z.max_r by lia.
      apply Z.lt_le_trans with (2 ^ 52 * 2 ^ (d1 + s - 52)).
      + rewrite <- Z.pow_add_r by lia.
        replace (52 + (d1 + s - 52)) with (d1 + s) by lia. exact Hb.
      + apply Z.mul_le_mono_nonneg_r; [apply Z.pow_nonneg; lia|exact Hmy]. }
  unfold s in Dq. lia.
Qed.

End RoundingBounds.

(** ** Classes of values

    Each class test of [PrimFloat] read on the specification. *)

Lemma SFcompare_refl_finite s m e :
  SFcompare (S754_finite s m e) (S754_finite s m e) = Some Eq.
Proof.
  simpl. rewrite Z.compare_refl, Pos.compare_cont_refl.
  destruct s; reflexivity.
Qed.

Lemma is_nan_spec x : is_nan x = sf_is_nan (Prim2SF x).
Proof.
  unfold is_nan. rewrite FloatAxioms.eqb_spec. unfold SFeqb.
  destruct (Prim2SF x) as [s|s| |s m e]; try (destruct s; reflexivity).
  - reflexivity.
  - rewrite SFcompare_refl_finite. reflexivity.
Qed.

Lemma Prim2SF_zero : Prim2SF 0 = S754_zero false.
Proof. reflexivity. Qed.

Lemma is_zero_spec x : is_zero x = sf_is_zero (Prim2SF x).
Proof.
  unfold is_zero. rewrite FloatAxioms.eqb_spec. change (Prim2SF zero) with (S754_zero false).
  unfold SFeqb.
  destruct (Prim2SF x) as [s|s| |s m e]; try (destruct s; reflexivity).
  reflexivity.
Qed.

Lemma is_finite_spec x : is_finite x = sf_is_finite (Prim2SF x).
Proof.
  unfold is_finite, is_infinity. rewrite is_nan_spec, FloatAxioms.eqb_spec, abs_spec.
  change (Prim2SF infinity) with (S754_infinity false). unfold SFeqb.
  destruct (Prim2SF x) as [s|s| |s m e]; try (destruct s; reflexivity).
  reflexivity.
Qed.

(** A value that is a zero (of either sign) or NaN. *)
Lemma zn_spec x : zn x = sf_zn (Prim2SF x).
Proof.
  unfold zn. rewrite is_zero_spec, is_nan_spec.
  destruct (Prim2SF x); reflexivity.
Qed.

(** Rewrites a goal about classes of results into one about [spec_float]s. *)
Ltac to_spec :=
  repeat first
    [ rewrite zn_spec | rewrite is_zero_spec | rewrite is_nan_spec
    | rewrite is_finite_spec | rewrite mul_spec | rewrite add_spec
    | rewrite sub_spec | rewrite div_spec ].

Ltac to_spec_in H :=
  repeat first
    [ rewrite zn_spec in H | rewrite is_zero_spec in H
    | rewrite is_nan_spec in H | rewrite is_finite_spec in H
    | rewrite mul_spec in H | rewrite add_spec in H
    | rewrite sub_spec in H | rewrite div_spec in H ].

Ltac by_class x := destruct (Prim2SF x) as [[|]|[|]| |[|] ? ?].

Lemma zn_zero : zn 0 = true.
Proof. reflexivity. Qed.

Lemma zn_mul_l a b : zn a = true -> zn (a * b) = true.
Proof.
  intros H. to_spec_in H. to_spec.
  by_class a; try discriminate H; by_class b; reflexivity.
Qed.

Lemma zn_mul_r a b : zn b = true -> zn (a * b) = true.
Proof.
  intros H. to_spec_in H. to_spec.
  by_class b; try discriminate H; by_class a; reflexivity.
Qed.

Lemma zn_add a b : zn a = true -> zn b = true -> zn (a + b) = true.
Proof.
  intros Ha Hb. to_spec_in Ha. to_spec_in Hb. to_spec.
  by_class a; try discriminate Ha; by_class b; try discriminate Hb;
    reflexivity.
Qed.

Lemma zn_sub a b : zn a = true -> zn b = true -> zn (a - b) = true.
Proof.
  intros Ha Hb. to_spec_in Ha. to_spec_in Hb. to_spec.
  by_class a; try discriminate Ha; by_class b; try discriminate Hb;
    reflexivity.
Qed.

Lemma zn_div_l a b : zn a = true -> zn (a / b) = true.
Proof.
  intros H. to_spec_in H. to_spec.
  by_class a; try discriminate H; by_class b; reflexivity.
Qed.

Lemma zero_of_zn x : zn x = true -> is_nan x = false -> is_zero x = true.
Proof.
  intros H Hn. to_spec_in H. to_spec_in Hn. to_spec.
  by_class x; try discriminate H; try discriminate Hn; reflexivity.
Qed.

Lemma zero_is_zn x : is_zero x = true -> zn x = true.
Proof. intros H. unfold zn. rewrite H. reflexivity. Qed.

Lemma zero_mul_finite z d :
  is_zero z = true -> is_finite d = true -> is_zero (z * d) = true.
Proof.
  intros Hz Hd. to_spec_in Hz. to_spec_in Hd. to_spec.
  by_class z; try discriminate Hz; by_class d; try discriminate Hd;
    reflexivity.
Qed.

Lemma finite_mul_zero d z :
  is_finite d = true -> is_zero z = true -> is_zero (d * z) = true.
Proof.
  intros Hd Hz. to_spec_in Hz. to_spec_in Hd. to_spec.
  by_class z; try discriminate Hz; by_class d; try discriminate Hd;
    reflexivity.
Qed.

Lemma zero_div_two z : is_zero z = true -> is_zero (z / 2) = true.
Proof.
  intros Hz. to_spec_in Hz. to_spec.
  by_class z; try discriminate Hz; reflexivity.
Qed.

Lemma two_mul_zero z : is_zero z = true -> is_zero (2 * z) = true.
Proof.
  intros Hz. to_spec_in Hz. to_spec.
  by_class z; try discriminate Hz; reflexivity.
Qed.

Lemma zero_add_zero a b :
  is_zero a = true -> is_zero b = true -> is_zero (a + b) = true.
Proof.
  intros Ha Hb. to_spec_in Ha. to_spec_in Hb. to_spec.
  by_class a; try discriminate Ha; by_class b; try discriminate Hb;
    reflexivity.
Qed.

Lemma zero_is_finite z : is_zero z = true -> is_finite z = true.
Proof.
  intros Hz. to_spec_in Hz. to_spec. by_class z; try discriminate Hz;
    reflexivity.
Qed.

(** [+0] absorbs a zero of either sign. *)
Lemma pos_zero_add z : is_zero z = true -> 0 + z = 0.
Proof.
  intros Hz. to_spec_in Hz. apply Prim2SF_inj. to_spec.
  by_class z; try discriminate Hz; reflexivity.
Qed.

Lemma neg_zero_class x :
  Prim2SF x = S754_zero true -> is_neg_zero x = true.
Proof.
  intros H. rewrite <- (SF2Prim_Prim2SF x), H. reflexivity.
Qed.

(** Adding a zero of either sign changes nothing but a negative zero. *)
Lemma add_zero_keep v z :
  is_neg_zero v = false -> is_zero z = true -> v + z = v.
Proof.
  intros Hv Hz. to_spec_in Hz. apply Prim2SF_inj. to_spec.
  destruct (Prim2SF v) as [[|]|[|]| |[|] ? ?] eqn:E;
    try (apply neg_zero_class in E; congruence);
    by_class z; try discriminate Hz; reflexivity.
Qed.

Lemma finite_add_l a b : is_finite (a + b) = true -> is_finite a = true.
Proof.
  intros H. to_spec_in H. to_spec.
  by_class a; try reflexivity; by_class b; try discriminate H.
Qed.

Lemma finite_div_l a b : is_finite (a / b) = true -> is_finite a = true.
Proof.
  intros H. to_spec_in H. to_spec.
  by_class a; try reflexivity; by_class b; try discriminate H.
Qed.

(** ** NaN is absorbing *)

Lemma nan_add_l a b : is_nan a = true -> is_nan (a + b) = true.
Proof.
  intros H. to_spec_in H. to_spec.
  by_class a; try discriminate H; reflexivity.
Qed.

Lemma nan_add_r a b : is_nan b = true -> is_nan (a + b) = true.
Proof.
  intros H. to_spec_in H. to_spec.
  by_class b; try discriminate H; by_class a; reflexivity.
Qed.

Lemma nan_mul_r a b : is_nan b = true -> is_nan (a * b) = true.
Proof.
  intros H. to_spec_in H. to_spec.
  by_class b; try discriminate H; by_class a; reflexivity.
Qed.

(** ** Division by the driver's constants

    Dividing a finite double by 6, 10 or 1000 gives a finite double. *)

Lemma div_finite x c sy my ey :
  Prim2SF c = S754_finite sy my ey ->
  (2 ^ 52 <= Zpos my)%Z -> (-51 <= ey)%Z ->
  is_finite x = true -> is_finite (x / c) = true.
Proof.
  intros Hc Hm He Hx. rewrite is_finite_spec in Hx.
  rewrite is_finite_spec, div_spec, Hc.
  pose proof (Prim2SF_valid x) as V.
  destruct (Prim2SF x) as [s|s| |s m e]; try discriminate Hx.
  - reflexivity.
  - apply SFdiv_finite; assumption.
Qed.

Lemma finite_div_6 x : is_finite x = true -> is_finite (x / 6) = true.
Proof.
  apply (div_finite x 6 false 6755399441055744%positive (-50)%Z);
    [reflexivity|apply Z.leb_le; reflexivity|lia].
Qed.

Lemma finite_div_10 x : is_finite x = true -> is_finite (x / 10) = true.
Proof.
  apply (div_finite x 10 false 5629499534213120%positive (-49)%Z);
    [reflexivity|apply Z.leb_le; reflexivity|lia].
Qed.

Lemma finite_div_1000 x : is_finite x = true -> is_finite (x / 1000) = true.
Proof.
  apply (div_finite x 1000 false 8796093022208000%positive (-43)%Z);
    [reflexivity|apply Z.leb_le; reflexivity|lia].
Qed.

Lemma finite_not_nan x : is_finite x = true -> is_nan x = false.
Proof.
  unfold is_finite. rewrite negb_true_iff, orb_false_iff. intros [H _].
  exact H.
Qed.

Lemma Math_min_finite a b :
  is_finite a = true -> is_finite b = true -> is_finite (Math_min a b) = true.
Proof.
  intros Ha Hb. unfold Math_min.
  rewrite (finite_not_nan a Ha), (finite_not_nan b Hb). cbn [orb].
  destruct (a <? b); [exact Ha|]. destruct (b <? a); [exact Hb|].
  destruct (is_zero a && get_sign a); assumption.
Qed.

(** A frame whose elapsed time is finite integrates with a finite
    sub-step. *)
Lemma finite_elapsed_sub_dt t l :
  is_finite (t - l) = true -> is_finite (sub_dt t l) = true.
Proof.
  intros H. unfold sub_dt.
  change (float_of_nat subSteps) with 10. apply finite_div_10.
  unfold frame_dt. apply Math_min_finite; [|reflexivity].
  apply finite_div_1000, H.
Qed.

(** * Part III: the evaluator, the stepper and the driver *)

(** ** Helper lemmas *)

Lemma taylorMath_es_trig : es_trig taylorMath.
Proof. split; reflexivity. Qed.

Lemma derivatives_shape {M : JSMath} y cfg :
  exists a b c d, derivatives y cfg = [a; b; c; d].
Proof. destruct cfg. unfold derivatives. do 4 eexists. reflexivity. Qed.

Lemma half_step_zero v k :
  is_neg_zero v = false -> is_finite k = true -> v + k * 0 / 2 = v.
Proof.
  intros Hv Hk. apply add_zero_keep; [assumption|].
  apply zero_div_two, finite_mul_zero; [assumption|reflexivity].
Qed.

Lemma full_step_zero v k :
  is_neg_zero v = false -> is_finite k = true -> v + k * 0 = v.
Proof.
  intros Hv Hk. apply add_zero_keep; [assumption|].
  apply finite_mul_zero; [assumption|reflexivity].
Qed.

Lemma combine_zero v s :
  is_neg_zero v = false -> is_finite s = true -> v + 0 / 6 * s = v.
Proof.
  intros Hv Hs. apply add_zero_keep; [assumption|].
  apply zero_mul_finite; [reflexivity|assumption].
Qed.

Lemma finite_sum_sample k :
  is_finite (k + 2 * k + 2 * k + k) = true -> is_finite k = true.
Proof. intros H. do 3 apply finite_add_l in H. exact H. Qed.

(** A NaN acceleration in the first sample makes the next [omega1] NaN,
    whatever the step. *)
Lemma rk4_omega1_nan {M : JSMath} st cfg dt :
  is_nan (idx (derivatives (vec st) cfg) 1) = true ->
  is_nan (omega1 (rk4 st cfg dt)) = true.
Proof.
  intros K. unfold rk4. cbn [omega1 map_i map_from idx nth].
  apply nan_add_r, nan_mul_r. do 3 apply nan_add_l. exact K.
Qed.

(** *** The rest position *)

Create HintDb zn.
#[local] Hint Resolve zn_zero zn_mul_l zn_mul_r zn_add zn_sub zn_div_l : zn.

(** At rest every numerator of the evaluator is a product with
    [Math.sin(+0) = +0], so each acceleration is a zero or NaN. *)
Lemma derivatives_rest_zn {M : JSMath} cfg :
  es_trig M ->
  exists z1 z2, derivatives rest cfg = [0; z1; 0; z2]
                /\ zn z1 = true /\ zn z2 = true.
Proof.
  intros [Hs Hc]. destruct cfg as [l1 l2 p1 p2 gr dmp].
  unfold derivatives, rest. cbn [idx nth].
  change (0 - 0) with 0. change (2 * 0 - 2 * 0) with 0.
  change (0 - 2 * 0) with 0. rewrite Hs, Hc.
  do 2 eexists. split; [reflexivity|].
  split; auto 10 with zn.
Qed.

Lemma derivatives_rest {M : JSMath} cfg :
  es_trig M -> rest_regular cfg = true ->
  exists z1 z2, derivatives rest cfg = [0; z1; 0; z2]
                /\ is_zero z1 = true /\ is_zero z2 = true.
Proof.
  intros Ht Hr. destruct (derivatives_rest_zn cfg Ht) as (z1 & z2 & E & H1 & H2).
  exists z1, z2. split; [exact E|].
  unfold rest_regular in Hr. rewrite E in Hr. cbn [forallb] in Hr.
  rewrite !andb_true_iff, !negb_true_iff in Hr.
  destruct Hr as (_ & N1 & _ & N2 & _).
  split; apply zero_of_zn; assumption.
Qed.

Lemma rest_half z dt :
  is_zero z = true -> is_finite dt = true -> 0 + z * dt / 2 = 0.
Proof.
  intros Hz Hd. apply pos_zero_add, zero_div_two, zero_mul_finite; assumption.
Qed.

Lemma rest_full z dt :
  is_zero z = true -> is_finite dt = true -> 0 + z * dt = 0.
Proof. intros Hz Hd. apply pos_zero_add, zero_mul_finite; assumption. Qed.

Lemma rest_combine z dt :
  is_zero z = true -> is_finite dt = true ->
  0 + dt / 6 * (z + 2 * z + 2 * z + z) = 0.
Proof.
  intros Hz Hd. apply pos_zero_add, finite_mul_zero.
  - apply finite_div_6, Hd.
  - repeat apply zero_add_zero; try apply two_mul_zero; assumption.
Qed.

(** One step from rest: the four channels stay [+0], the clock advances. *)
Lemma rk4_rest {M : JSMath} st cfg dt :
  es_trig M -> rest_regular cfg = true -> is_finite dt = true ->
  at_rest st ->
  at_rest (rk4 st cfg dt) /\ time (rk4 st cfg dt) = time st + dt.
Proof.
  intros Ht Hr Fd Hst. split; [|reflexivity].
  destruct (derivatives_rest cfg Ht Hr) as (z1 & z2 & E & H1 & H2).
  assert (H0 : is_zero 0 = true) by reflexivity.
  destruct st as [t1 w1 t2 w2 tm]. unfold at_rest, vec in *.
  cbn [theta1 omega1 theta2 omega2] in Hst.
  injection Hst as -> -> -> ->.
  unfold rk4. cbn [theta1 omega1 theta2 omega2].
  fold rest. rewrite E. unfold rest. cbn [map_i map_from idx nth].
  rewrite !rest_half by assumption. fold rest.
  rewrite E. unfold rest. cbn [idx nth].
  rewrite !rest_half by assumption. fold rest.
  rewrite E. unfold rest. cbn [idx nth].
  rewrite !(rest_full 0 dt), (rest_full z1 dt), (rest_full z2 dt)
    by assumption.
  fold rest. rewrite E. unfold rest. cbn [idx nth].
  rewrite !rest_combine by assumption. reflexivity.
Qed.

Lemma for_loop_invariant {A : Type} (P : A -> Prop) (body : A -> A) :
  (forall x, P x -> P (body x)) ->
  forall n x, P x -> P (for_loop n body x).
Proof.
  intros Hb n. induction n as [|n IH]; intros x Hx; [exact Hx|].
  cbn [for_loop]. apply IH, Hb, Hx.
Qed.

Lemma integrate_rest {M : JSMath} st cfg subDt :
  es_trig M -> rest_regular cfg = true -> is_finite subDt = true ->
  at_rest st -> at_rest (integrate st cfg subDt).
Proof.
  intros Ht Hr Hd. unfold integrate.
  apply for_loop_invariant. intros x Hx.
  apply (rk4_rest x cfg subDt Ht Hr Hd Hx).
Qed.

Lemma update_rest {M : JSMath} {N : JSNumber} t a :
  es_trig M -> rest_regular (config a) = true ->
  steady_frames (lastTimeRef a) [t] = true ->
  at_rest (state a) ->
  at_rest (state (update t a))
  /\ config (update t a) = config a
  /\ lastTimeRef (update t a) = Some t.
Proof.
  intros Ht Hr Hs Hst. unfold update.
  destruct (lastTimeRef a) as [last|]; [destruct (isRunning a)|];
    cbn [state config lastTimeRef]; repeat split; try exact Hst.
  cbn [steady_frames] in Hs. rewrite andb_true_r in Hs.
  apply integrate_rest; try assumption.
  apply finite_elapsed_sub_dt, Hs.
Qed.

Lemma steps_rest {M : JSMath} cfg :
  es_trig M -> rest_regular cfg = true ->
  forall dts st,
    at_rest st ->
    forallb is_finite dts = true ->
    at_rest (fold_left (fun s dt => rk4 s cfg dt) dts st)
    /\ time (fold_left (fun s dt => rk4 s cfg dt) dts st)
       = fold_left (fun t dt => t + dt) dts (time st).
Proof.
  intros Ht Hr dts. induction dts as [|dt dts IH]; intros st Hst Hd.
  - split; [exact Hst|reflexivity].
  - cbn [forallb] in Hd. apply andb_true_iff in Hd. destruct Hd as [Hd Hds].
    cbn [fold_left].
    destruct (rk4_rest st cfg dt Ht Hr Hd Hst) as [Hst' Htm].
    destruct (IH _ Hst' Hds) as [IH1 IH2]. split; [exact IH1|].
    rewrite IH2, Htm. reflexivity.
Qed.

Lemma frames_rest {M : JSMath} {N : JSNumber} :
  es_trig M ->
  forall ts a,
    rest_regular (config a) = true ->
    steady_frames (lastTimeRef a) ts = true ->
    at_rest (state a) ->
    at_rest (state (frames ts a)).
Proof.
  intros Ht ts. induction ts as [|t ts IH]; intros a Hr Hs Hst; [exact Hst|].
  cbn [steady_frames] in Hs. apply andb_true_iff in Hs. destruct Hs as [H1 H2].
  assert (H1' : steady_frames (lastTimeRef a) [t] = true).
  { cbn [steady_frames]. rewrite H1. reflexivity. }
  destruct (update_rest t a Ht Hr H1' Hst) as (Hst' & Hc & Hl).
  change (frames (t :: ts) a) with (frames ts (update t a)).
  apply IH; [rewrite Hc; exact Hr|rewrite Hl; exact H2|exact Hst'].
Qed.

(** The built-in config is regular at rest under every conforming host. *)
Lemma initial_config_rest_regular {M : JSMath} :
  es_trig M -> rest_regular INITIAL_CONFIG = true.
Proof.
  intros [Hs Hc]. destruct M as [msin mcos]. cbn in Hs, Hc.
  cbv. rewrite ?Hs, ?Hc. reflexivity.
Qed.

(** *** The history buffer *)

Lemma slice_last_split {A : Type} (n : nat) (l : list A) :
  exists evicted,
    evicted ++ slice_last n l = l /\ length evicted = (length l - n)%nat.
Proof.
  exists (firstn (length l - n)%nat l). split.
  - apply firstn_skipn.
  - rewrite length_firstn. lia.
Qed.

Lemma slice_last_length {A : Type} (n : nat) (l : list A) :
  length (slice_last n l) <= n.
Proof. unfold slice_last. rewrite length_skipn. lia. Qed.

Lemma run_cons {M : JSMath} {N : JSNumber} e es a :
  run (e :: es) a = run es (handle e a).
Proof. reflexivity. Qed.

Lemma handle_history_bound {M : JSMath} {N : JSNumber} e a :
  length (history a) <= 100 -> length (history (handle e a)) <= 100.
Proof.
  intros H. destruct e; cbn [handle]; try exact H.
  - unfold update. destruct (lastTimeRef a); [destruct (isRunning a)|];
      cbn [history]; try exact H.
    destruct (crossed_bucket _ _); [apply slice_last_length|exact H].
  - cbn. lia.
Qed.

Lemma run_history_bound {M : JSMath} {N : JSNumber} es :
  forall a, length (history a) <= 100 ->
            length (history (run es a)) <= 100.
Proof.
  induction es as [|e es IH]; intros a H; [exact H|].
  rewrite run_cons. apply IH, handle_history_bound, H.
Qed.

(** ** The model on concrete inputs *)

Example Math_floor_examples :
  (Math_floor 0.64, Math_floor (-0.5), Math_floor 20.999, Math_floor (-0),
   Math_floor 1e300, Math_floor nan)
  = (0, -1, 20, -0, 1e300, nan).
Proof. reflexivity. Qed.

Example Math_min_examples :
  (Math_min 0.984 0.032, Math_min 0.0175 0.032, Math_min nan 0.032,
   Math_min 0 (-0), Math_min neg_infinity 0.032)
  = (0.032, 0.0175, nan, -0, neg_infinity).
Proof. reflexivity. Qed.

Example slice_last_examples :
  (slice_last 2 [1; 2; 3], slice_last 5 [1; 2; 3]) = ([2; 3], [1; 2; 3]).
Proof. reflexivity. Qed.

(** The evaluator at the built-in initial condition, under the reference
    host. *)
Example derivatives_initial :
  derivatives (M := taylorMath) (vec INITIAL_STATE) INITIAL_CONFIG
  = [0; -7.7318848509690357; 0; 2.0253951927628182].
Proof. vm_compute. reflexivity. Qed.

(** A stalled frame is clamped to 0.032 s; the clock then advances by ten
    rounded additions of 0.0032, which is not the double 0.032. *)
Example clamped_frame_clock :
  let a := mkApp INITIAL_CONFIG INITIAL_STATE true [] (Some 16) in
  frame_dt 1000 16 = 0.032
  /\ time (state (update (M := taylorMath) (N := nullNumber) 1000 a))
     = 0.032000000000000008.
Proof. split; vm_compute; reflexivity. Qed.

(** * The claims *)

(** ** C1 *)

(** C1: on the state vector [(theta1, omega1, theta2, omega2)] the evaluator
    returns [(omega1, a1 - damping*omega1, omega2, a2 - damping*omega2)]
    with [a1], [a2] the spec's closed-form expressions; the damping term is
    subtracted from the finished quotient. *)
Theorem derivatives_closed_form {M : JSMath} (cfg : PendulumConfig)
  (th1 om1 th2 om2 : float) :
  derivatives [th1; om1; th2; om2] cfg =
  [ om1;
    spec_a1 cfg th1 om1 th2 om2 - damping cfg * om1;
    om2;
    spec_a2 cfg th1 om1 th2 om2 - damping cfg * om2 ].
Proof. destruct cfg. reflexivity. Qed.

(** ** C2 *)

(** C2: one step samples the evaluator at the state, at the state advanced
    by half a step along k1, by half a step along k2 and by a full step along
    k3 (the code evaluates each offset as [k*dt/2], resp. [k*dt]), returns
    [state + (dt/6)*(k1 + 2*k2 + 2*k3 + k4)] in each of the four channels and
    [time + dt]; the result is a function of the three arguments alone. *)
Theorem rk4_scheme {M : JSMath} (st : PendulumState) (cfg : PendulumConfig)
  (dt : float) :
  let y := [theta1 st; omega1 st; theta2 st; omega2 st] in
  let half k :=
    [ theta1 st + idx k 0 * dt / 2; omega1 st + idx k 1 * dt / 2;
      theta2 st + idx k 2 * dt / 2; omega2 st + idx k 3 * dt / 2 ] in
  let full k :=
    [ theta1 st + idx k 0 * dt; omega1 st + idx k 1 * dt;
      theta2 st + idx k 2 * dt; omega2 st + idx k 3 * dt ] in
  let k1 := derivatives y cfg in
  let k2 := derivatives (half k1) cfg in
  let k3 := derivatives (half k2) cfg in
  let k4 := derivatives (full k3) cfg in
  let next v i :=
    v + (dt / 6) * (idx k1 i + 2 * idx k2 i + 2 * idx k3 i + idx k4 i) in
  rk4 st cfg dt =
  {| theta1 := next (theta1 st) 0%nat;
     omega1 := next (omega1 st) 1%nat;
     theta2 := next (theta2 st) 2%nat;
     omega2 := next (omega2 st) 3%nat;
     time := time st + dt |}.
Proof. reflexivity. Qed.

(** ** C3 *)

(** C3: a frame delivered to a running component that has an anchor clamps
    the elapsed seconds to 0.032, divides them by 10 and applies [rk4] ten
    times in sequence with that sub-step; the clock is the old one plus the
    ten sub-steps, and the anchor becomes the frame's timestamp. *)
Theorem update_running_frame {M : JSMath} {N : JSNumber}
  (cfg : PendulumConfig) (st : PendulumState) (h : list HistoryPoint.t)
  (last t : float) :
  let a := mkApp cfg st true h (Some last) in
  let frameDt := Math_min ((t - last) / 1000) 0.032 in
  let subDt := frameDt / 10 in
  let step s := rk4 s cfg subDt in
  state (update t a)
  = step (step (step (step (step (step (step (step (step (step st)))))))))
  /\ time (state (update t a))
     = time st + subDt + subDt + subDt + subDt + subDt
               + subDt + subDt + subDt + subDt + subDt
  /\ lastTimeRef (update t a) = Some t
  /\ config (update t a) = cfg.
Proof. repeat split. Qed.

(** ** C4 *)

(** C4: without an anchor, or while paused, a frame leaves the state and the
    history as they are and records its timestamp as the anchor; hence the
    first frame after resuming integrates over the time since the last
    paused frame only. *)
Theorem update_idle_frame {M : JSMath} {N : JSNumber} (a : App) (t : float) :
  lastTimeRef a = None \/ isRunning a = false ->
  state (update t a) = state a
  /\ history (update t a) = history a
  /\ lastTimeRef (update t a) = Some t
  /\ config (update t a) = config a
  /\ isRunning (update t a) = isRunning a
  /\ forall t', state (update t' (setIsRunning true (update t a)))
                = integrate (state a) (config a) (sub_dt t' t).
Proof.
  intros H. unfold update.
  destruct (lastTimeRef a) as [last|]; destruct (isRunning a);
    try (destruct H; discriminate); repeat split.
Qed.

Lemma update_idle_frame_witness :
  (lastTimeRef initialApp = None \/ isRunning initialApp = false)
  /\ state (update (M := taylorMath) (N := nullNumber) 16 initialApp)
     = INITIAL_STATE
  /\ lastTimeRef (update (M := taylorMath) (N := nullNumber) 16 initialApp)
     = Some 16.
Proof.
  split; [left; reflexivity|].
  destruct (update_idle_frame (M := taylorMath) (N := nullNumber)
              initialApp 16 (or_introl eq_refl)) as (H1 & _ & H3 & _).
  split; [exact H1|exact H3].
Defined.

(** ** C5 *)

(** C5: on a running frame with an anchor the history changes exactly when
    [floor(new_time*20) > floor(old_time*20)]; it then gains one point at
    its end (the oldest entries beyond 100 leave at the front), and that
    point holds [Number(time.toFixed(2))] of the new clock and
    [Number((theta*180/Math.PI).toFixed(1))] of the two new angles. *)
Theorem update_samples_history {M : JSMath} {N : JSNumber}
  (cfg : PendulumConfig) (st : PendulumState) (h : list HistoryPoint.t)
  (last t : float) :
  let a := mkApp cfg st true h (Some last) in
  let new := state (update t a) in
  let point :=
    {| HistoryPoint.time := Number (toFixed (time new) 2);
       HistoryPoint.theta1 := Number (toFixed (theta1 new * 180 / Math_PI) 1);
       HistoryPoint.theta2 := Number (toFixed (theta2 new * 180 / Math_PI) 1)
    |} in
  if Math_floor (time st * 20) <? Math_floor (time new * 20)
  then exists evicted,
         evicted ++ history (update t a) = h ++ [point]
         /\ length evicted = (length h + 1 - 100)%nat
  else history (update t a) = h.
Proof.
  intros a new point.
  assert (Hs : state (update t a) = integrate st cfg (sub_dt t last))
    by reflexivity.
  assert (Hh : history (update t a)
               = if crossed_bucket (integrate st cfg (sub_dt t last)) st
                 then pushHistory h (integrate st cfg (sub_dt t last))
                 else h) by reflexivity.
  rewrite Hh. subst point new. rewrite Hs. clear Hs Hh.
  generalize (integrate st cfg (sub_dt t last)). intros cur.
  unfold crossed_bucket.
  destruct (Math_floor (time st * 20) <? Math_floor (time cur * 20)).
  - unfold pushHistory. fold (newPoint cur).
    destruct (slice_last_split 100 (h ++ [newPoint cur])) as (ev & E & L).
    exists ev. split; [exact E|]. rewrite L, length_app. reflexivity.
  - reflexivity.
Qed.

(** ** The history buffer (the part of C6 that does not depend on the
       decimal rounding of the clock) *)

(** X1: whatever sequence of frames, resets and control changes the
    component receives after mounting, its history holds at most 100
    points. *)
Theorem history_bounded {M : JSMath} {N : JSNumber} (es : list Event) :
  length (history (run es initialApp)) <= 100.
Proof. apply run_history_bound. cbn. lia. Qed.

(** X2: a push keeps the old points in order behind the ones it drops from
    the front, drops exactly the overflow beyond 100, and puts the new point
    last. *)
Theorem pushHistory_evicts_oldest {N : JSNumber} (h : list HistoryPoint.t)
  (current : PendulumState) :
  pushHistory h current
  = skipn (length h + 1 - 100)%nat h ++ [newPoint current].
Proof.
  unfold pushHistory, slice_last. rewrite length_app, skipn_app. cbn [length].
  replace (length h + 1 - 100 - length h)%nat with 0%nat by lia. reflexivity.
Qed.

(** X3: an event never reorders or rewrites stored points: it leaves the
    history alone, empties it (reset), or pushes the point of the state the
    frame just produced. *)
Theorem history_append_only {M : JSMath} {N : JSNumber} (e : Event)
  (a : App) :
  history (handle e a) = history a
  \/ history (handle e a) = []
  \/ history (handle e a) = pushHistory (history a) (state (handle e a)).
Proof.
  destruct e as [t| |c|b]; cbn [handle].
  - unfold update. destruct (lastTimeRef a) as [last|];
      [destruct (isRunning a)|]; cbn [history state]; auto.
    destruct (crossed_bucket _ _); auto.
  - right; left. reflexivity.
  - left. reflexivity.
  - left. reflexivity.
Qed.

(** ** C7 *)

(** C7, as stated, fails: under the built-in config the step with [dt = 0]
    from [fast_state] does not return [fast_state], whatever conforming
    [Math.sin] and [Math.cos] the host provides ([omega1*omega1] overflows,
    the acceleration is NaN, and [0 * NaN] is NaN). *)
Lemma rk4_zero_dt_not_identity :
  ~ (exists M : JSMath,
        es_trig M /\ rk4 fast_state INITIAL_CONFIG 0 = fast_state).
Proof.
  intros (M & [Hs Hc] & E).
  assert (K : is_nan (idx (derivatives (vec fast_state) INITIAL_CONFIG) 1)
              = true).
  { destruct M as [msin mcos]. cbn in Hs, Hc.
    cbv. rewrite ?Hs, ?Hc. reflexivity. }
  apply (rk4_omega1_nan fast_state INITIAL_CONFIG 0) in K.
  rewrite E in K. discriminate K.
Qed.

(** A negative zero does not survive the step either: [-0 + 0] is [+0]. *)
Lemma rk4_zero_dt_neg_zero_clock {M : JSMath} (cfg : PendulumConfig) :
  is_neg_zero (time neg_clock_state) = true
  /\ is_neg_zero (time (rk4 neg_clock_state cfg 0)) = false.
Proof. split; reflexivity. Qed.

(** C7 (amended): for every config and every state none of whose five
    fields is a negative zero and at which the weighted sum
    [k + 2*k + 2*k + k] of the evaluator's output [k] is finite in each of
    the four channels, the step with [dt = 0] returns the state unchanged in
    all five fields. *)
Theorem rk4_zero_dt_identity {M : JSMath} (st : PendulumState)
  (cfg : PendulumConfig) :
  no_neg_zero st = true -> finite_sums st cfg = true -> rk4 st cfg 0 = st.
Proof.
  destruct st as [t1 w1 t2 w2 tm].
  unfold no_neg_zero, finite_sums, vec, rk4. cbn [theta1 omega1 theta2 omega2 time forallb].
  destruct (derivatives_shape [t1; w1; t2; w2] cfg) as (a & b & c & d & E).
  rewrite E. cbn [forallb].
  rewrite !andb_true_iff, !negb_true_iff.
  intros (Htm & Ht1 & Hw1 & Ht2 & Hw2 & _) (Ha & Hb & Hc & Hd & _).
  pose proof (finite_sum_sample _ Ha) as Fa.
  pose proof (finite_sum_sample _ Hb) as Fb.
  pose proof (finite_sum_sample _ Hc) as Fc.
  pose proof (finite_sum_sample _ Hd) as Fd.
  cbn [map_i map_from idx nth].
  rewrite !half_step_zero by assumption.
  rewrite E. cbn [idx nth].
  rewrite !half_step_zero by assumption.
  rewrite E. cbn [idx nth].
  rewrite !full_step_zero by assumption.
  rewrite E. cbn [idx nth].
  rewrite !combine_zero by assumption.
  f_equal. apply add_zero_keep; [assumption|reflexivity].
Qed.

Lemma rk4_zero_dt_identity_witness :
  no_neg_zero INITIAL_STATE = true
  /\ finite_sums (M := taylorMath) INITIAL_STATE INITIAL_CONFIG = true
  /\ rk4 (M := taylorMath) INITIAL_STATE INITIAL_CONFIG 0 = INITIAL_STATE.
Proof.
  split; [vm_compute; reflexivity|]. split; [vm_compute; reflexivity|].
  apply (rk4_zero_dt_identity (M := taylorMath)); vm_compute; reflexivity.
Defined.

(** ** C8 *)

(** C8, as stated, fails: with [light_config] one step of 0.01 s from the
    rest state leaves [omega1] NaN, whatever conforming [Math.sin] and
    [Math.cos] the host provides (the acceleration at rest is 0/0). *)
Lemma rest_left_under_light_config :
  ~ (exists M : JSMath,
        es_trig M /\ at_rest (rk4 rest_state light_config 0.01)).
Proof.
  intros (M & [Hs Hc] & E).
  assert (K : is_nan (idx (derivatives (vec rest_state) light_config) 1)
              = true).
  { destruct M as [msin mcos]. cbn in Hs, Hc.
    cbv. rewrite ?Hs, ?Hc. reflexivity. }
  apply (rk4_omega1_nan rest_state light_config 0.01) in K.
  assert (E' : omega1 (rk4 rest_state light_config 0.01) = 0)
    by exact (f_equal (fun l => idx l 1) E).
  rewrite E' in K. discriminate K.
Qed.

(** C8 (amended): let the host's [Math.sin] and [Math.cos] take the values
    ECMAScript fixes at [+0], and let the config be one at which the
    evaluator returns no NaN at the rest position (no product overflows and
    the denominators [L*(2*m1 + m2 - m2)] are not 0; the built-in config is
    one).  Then from [theta1 = omega1 = theta2 = omega2 = +0] any number of
    steps with finite [dt], and any number of frames whose elapsed time is
    finite, leave the four channels exactly [+0]; the clock alone advances,
    by the [dt]s in turn. *)
Theorem rest_is_fixed_point {M : JSMath} {N : JSNumber}
  (cfg : PendulumConfig) :
  es_trig M -> rest_regular cfg = true ->
  (forall dts st,
      at_rest st ->
      forallb is_finite dts = true ->
      at_rest (fold_left (fun s dt => rk4 s cfg dt) dts st)
      /\ time (fold_left (fun s dt => rk4 s cfg dt) dts st)
         = fold_left (fun t dt => t + dt) dts (time st))
  /\ (forall ts a,
         config a = cfg ->
         at_rest (state a) ->
         steady_frames (lastTimeRef a) ts = true ->
         at_rest (state (frames ts a))).
Proof.
  intros Ht Hr. split.
  - apply steps_rest; assumption.
  - intros ts a Hc Hst Hs. apply frames_rest; try assumption.
    rewrite Hc. exact Hr.
Qed.

Lemma rest_is_fixed_point_witness :
  es_trig taylorMath
  /\ rest_regular (M := taylorMath) INITIAL_CONFIG = true
  /\ at_rest (fold_left
                (fun s dt => rk4 (M := taylorMath) s INITIAL_CONFIG dt)
                [0.0032; 0.01] rest_state)
  /\ at_rest (state (frames (M := taylorMath) (N := nullNumber)
                       [0; 16; 33.5]
                       (mkApp INITIAL_CONFIG rest_state true [] None))).
Proof.
  split; [exact taylorMath_es_trig|].
  split; [vm_compute; reflexivity|].
  destruct (rest_is_fixed_point (M := taylorMath) (N := nullNumber)
              INITIAL_CONFIG taylorMath_es_trig) as [Hsteps Hframes].
  - vm_compute; reflexivity.
  - split.
    + apply Hsteps; [reflexivity|vm_compute; reflexivity].
    + apply Hframes; [reflexivity|reflexivity|vm_compute; reflexivity].
Defined.

(** ** C9 *)

(** C9: reset puts the state at the initial state, empties the history and
    clears the anchor; what it leaves is the freshly mounted component with
    the current config and run flag, so every later sequence of frames (or
    of any events) gives the same component, field for field, as it gives
    from that fresh one. *)
Theorem reset_is_fresh {M : JSMath} {N : JSNumber} (a : App) :
  state (resetState a) = INITIAL_STATE
  /\ history (resetState a) = []
  /\ lastTimeRef (resetState a) = None
  /\ (forall ts,
         frames ts (resetState a)
         = frames ts (setIsRunning (isRunning a)
                        (setConfig (config a) initialApp)))
  /\ (forall es,
         run es (resetState a)
         = run es (setIsRunning (isRunning a)
                     (setConfig (config a) initialApp))).
Proof. repeat split. Qed.

(** ** C10 *)

(** C10: reset has no argument; it installs [theta1 = Math.PI/3],
    [omega1 = 0], [theta2 = Math.PI/4], [omega2 = 0], [time = 0] and keeps
    the config (and the run flag).  No event installs any other state: after
    an event the state is the old one, the built-in initial one, or the old
    one integrated over a frame. *)
Theorem reset_restores_builtin_state {M : JSMath} {N : JSNumber} (a : App) :
  handle Reset a = resetState a
  /\ state (resetState a)
     = {| theta1 := Math_PI / 3; omega1 := 0;
          theta2 := Math_PI / 4; omega2 := 0; time := 0 |}
  /\ config (resetState a) = config a
  /\ isRunning (resetState a) = isRunning a
  /\ forall e,
       state (handle e a) = state a
       \/ state (handle e a) = INITIAL_STATE
       \/ exists t last,
            e = Frame t /\ lastTimeRef a = Some last
            /\ state (handle e a)
               = integrate (state a) (config a) (sub_dt t last).
Proof.
  repeat split. intros [t| |c|b]; cbn [handle].
  - unfold update. destruct (lastTimeRef a) as [last|];
      [destruct (isRunning a)|]; cbn [state]; auto.
    right; right. exists t, last. repeat split.
  - right; left. reflexivity.
  - left. reflexivity.
  - left. reflexivity.
Qed.

(** * Part IV: further properties of the code *)

(** ** More facts about binary64 arithmetic *)

Lemma SFcompare_refl x :
  SFcompare x x = None \/ SFcompare x x = Some Eq.
Proof.
  destruct x as [s|s| |s m e]; [right|right|left|right];
    try (destruct s; reflexivity); try reflexivity.
  apply SFcompare_refl_finite.
Qed.

Lemma ltb_irrefl x : (x <? x) = false.
Proof.
  rewrite ltb_spec. unfold SFltb.
  destruct (SFcompare_refl (Prim2SF x)) as [E|E]; rewrite E; reflexivity.
Qed.

Lemma ltb_nan_r x y : is_nan y = true -> (x <? y) = false.
Proof.
  intros H. rewrite is_nan_spec in H. rewrite ltb_spec. unfold SFltb.
  by_class y; try discriminate H. by_class x; reflexivity.
Qed.

Lemma ltb_nan_l x y : is_nan x = true -> (x <? y) = false.
Proof.
  intros H. rewrite is_nan_spec in H. rewrite ltb_spec. unfold SFltb.
  by_class x; try discriminate H. reflexivity.
Qed.

Lemma nan_mul_l a b : is_nan a = true -> is_nan (a * b) = true.
Proof.
  intros H. to_spec_in H. to_spec.
  by_class a; try discriminate H; reflexivity.
Qed.

Lemma nan_div_l a b : is_nan a = true -> is_nan (a / b) = true.
Proof.
  intros H. to_spec_in H. to_spec.
  by_class a; try discriminate H; reflexivity.
Qed.

Lemma nan_sub_l a b : is_nan a = true -> is_nan (a - b) = true.
Proof.
  intros H. to_spec_in H. to_spec.
  by_class a; try discriminate H; reflexivity.
Qed.

Lemma Math_floor_nan x : is_nan x = true -> is_nan (Math_floor x) = true.
Proof.
  intros H. unfold Math_floor. pose proof H as H'.
  rewrite is_nan_spec in H'. by_class x; try discriminate H'. exact H.
Qed.

Lemma Math_min_nan_l a b : is_nan a = true -> is_nan (Math_min a b) = true.
Proof. intros H. unfold Math_min. rewrite H. reflexivity. Qed.

(** A finite double minus itself is [+0]. *)
Lemma sub_self x : is_finite x = true -> x - x = 0.
Proof.
  intros H. rewrite is_finite_spec in H. apply Prim2SF_inj.
  rewrite sub_spec. change (Prim2SF 0) with (S754_zero false).
  destruct (Prim2SF x) as [[|]|[|]| |s m e]; try discriminate H;
    try reflexivity.
  unfold SF64sub. cbn [SFsub]. rewrite Z.sub_diag. reflexivity.
Qed.

(** Squares do not see the sign. *)
Lemma neg_mul_neg x : (- x) * (- x) = x * x.
Proof.
  apply Prim2SF_inj. rewrite !mul_spec, opp_spec.
  destruct (Prim2SF x) as [[|]|[|]| |[|] m e]; reflexivity.
Qed.

Lemma zero_cases x : is_zero x = true -> x = 0 \/ x = -0.
Proof.
  intros H. rewrite is_zero_spec in H.
  destruct (Prim2SF x) as [[|]|s| |s m e] eqn:E; try discriminate H.
  - right. rewrite <- (SF2Prim_Prim2SF x), E. reflexivity.
  - left. rewrite <- (SF2Prim_Prim2SF x), E. reflexivity.
Qed.

Lemma nan_is_nan x : is_nan x = true -> x = nan.
Proof.
  intros H. rewrite is_nan_spec in H. apply Prim2SF_inj.
  by_class x; try discriminate H. reflexivity.
Qed.

Lemma zero_lt_clamp x : is_zero x = true -> (x <? 0.032) = true.
Proof.
  intros H. rewrite is_zero_spec in H. rewrite ltb_spec. unfold SFltb.
  by_class x; try discriminate H; reflexivity.
Qed.

(** ** The driver over whole runs *)

Lemma for_loop_last {A : Type} (body : A -> A) n :
  forall x, for_loop (S n) body x = body (for_loop n body x).
Proof.
  induction n as [|n IH]; intros x; [reflexivity|].
  change (for_loop (S (S n)) body x) with (for_loop (S n) body (body x)).
  rewrite IH. reflexivity.
Qed.

Lemma frames_cons {M : JSMath} {N : JSNumber} t ts a :
  frames (t :: ts) a = frames ts (update t a).
Proof. reflexivity. Qed.

Lemma update_keeps_controls {M : JSMath} {N : JSNumber} t a :
  config (update t a) = config a /\ isRunning (update t a) = isRunning a
  /\ lastTimeRef (update t a) = Some t.
Proof.
  unfold update. destruct (lastTimeRef a); [destruct (isRunning a)|];
    repeat split.
Qed.

Lemma update_paused {M : JSMath} {N : JSNumber} t a :
  isRunning a = false ->
  update t a = {| config := config a; state := state a; isRunning := false;
                  history := history a; lastTimeRef := Some t |}.
Proof.
  intros H. unfold update. rewrite H. destruct (lastTimeRef a); reflexivity.
Qed.

Lemma last_default {A : Type} (x : A) (l : list A) (d d' : A) :
  last (x :: l) d = last (x :: l) d'.
Proof.
  revert x. induction l as [|y l IH]; intros x; [reflexivity|].
  change (last (x :: y :: l) d) with (last (y :: l) d).
  change (last (x :: y :: l) d') with (last (y :: l) d'). apply IH.
Qed.

(** X4: while the component is paused, any number of frames leaves the
    state, the history, the config and the flag as they are; the anchor
    ends at the last frame's timestamp. *)
Theorem paused_frames_inert {M : JSMath} {N : JSNumber} (ts : list float)
  (a : App) :
  isRunning a = false ->
  state (frames ts a) = state a
  /\ history (frames ts a) = history a
  /\ config (frames ts a) = config a
  /\ isRunning (frames ts a) = false
  /\ lastTimeRef (frames ts a) = last (map Some ts) (lastTimeRef a).
Proof.
  revert a. induction ts as [|t ts IH]; intros a H.
  - repeat split. exact H.
  - rewrite frames_cons, (update_paused t a H).
    set (a' := {| config := config a; state := state a; isRunning := false;
                  history := history a; lastTimeRef := Some t |}).
    destruct (IH a' eq_refl) as (I1 & I2 & I3 & I4 & I5).
    repeat split; try assumption.
    rewrite I5. cbn [lastTimeRef a' map]. destruct ts as [|f ts];
      [reflexivity|]. cbn [map last]. apply last_default.
Qed.

Lemma paused_frames_inert_witness :
  isRunning initialApp = false
  /\ state (frames (M := taylorMath) (N := nullNumber) [0; 16; 33.5]
              initialApp) = INITIAL_STATE
  /\ lastTimeRef (frames (M := taylorMath) (N := nullNumber) [0; 16; 33.5]
                    initialApp) = Some 33.5.
Proof.
  split; [reflexivity|].
  destruct (paused_frames_inert (M := taylorMath) (N := nullNumber)
              [0; 16; 33.5] initialApp eq_refl) as (H1 & _ & _ & _ & H5).
  split; [exact H1|exact H5].
Defined.

Lemma reset_after_event {M : JSMath} {N : JSNumber} e a :
  resetState (handle e a)
  = if is_control e then handle e (resetState a) else resetState a.
Proof.
  destruct e as [t| |c|b]; cbn [handle is_control]; try reflexivity.
  unfold resetState.
  destruct (update_keeps_controls t a) as (Hc & Hr & _).
  rewrite Hc, Hr. reflexivity.
Qed.

(** X5: a reset after any run leaves exactly what the run's control
    changes (config and run flag) make of a reset component: frames and
    earlier resets leave no trace. *)
Theorem reset_forgets_run {M : JSMath} {N : JSNumber} (es : list Event)
  (a : App) :
  resetState (run es a) = run (filter is_control es) (resetState a).
Proof.
  revert a. induction es as [|e es IH]; intros a; [reflexivity|].
  rewrite run_cons, IH, reset_after_event. cbn [filter].
  destruct (is_control e); [rewrite run_cons|]; reflexivity.
Qed.

(** X6: the frame time is the elapsed seconds capped at 0.032 and nothing
    else: NaN stays NaN, anything below the cap (negative values and
    [-Infinity] included) passes unchanged. *)
Theorem frame_dt_clamp (t l : float) :
  let elapsed := (t - l) / 1000 in
  frame_dt t l
  = if is_nan elapsed then nan
    else if elapsed <? 0.032 then elapsed
    else 0.032.
Proof.
  intros elapsed. unfold frame_dt. fold elapsed. unfold Math_min.
  change (is_nan 0.032) with false. rewrite orb_false_r.
  destruct (is_nan elapsed); [reflexivity|].
  destruct (elapsed <? 0.032) eqn:L; [reflexivity|].
  destruct (0.032 <? elapsed); [reflexivity|].
  destruct (is_zero elapsed) eqn:Z; [|reflexivity].
  rewrite (zero_lt_clamp elapsed Z) in L. discriminate L.
Qed.

(** ** Non-finite steps and clocks *)

Lemma nan_step_channel v k dt :
  is_nan dt = true -> v + dt / 6 * k = nan.
Proof.
  intros H. apply nan_is_nan, nan_add_r, nan_mul_l, nan_div_l, H.
Qed.

(** X7: a step whose [dt] is NaN returns NaN in all five fields, from
    every state and under every config. *)
Theorem rk4_nan_step {M : JSMath} (st : PendulumState)
  (cfg : PendulumConfig) (dt : float) :
  is_nan dt = true -> rk4 st cfg dt = nan_state.
Proof.
  intros H. unfold rk4, nan_state. cbn [map_i map_from idx nth].
  rewrite !(nan_step_channel _ _ dt H).
  rewrite (nan_is_nan (time st + dt) (nan_add_r _ _ H)). reflexivity.
Qed.

Lemma rk4_nan_step_witness :
  is_nan nan = true
  /\ rk4 (M := taylorMath) INITIAL_STATE INITIAL_CONFIG nan = nan_state.
Proof.
  split; [reflexivity|].
  apply (rk4_nan_step (M := taylorMath)). reflexivity.
Defined.

Lemma sub_dt_nan t l : is_nan t = true -> is_nan (sub_dt t l) = true.
Proof.
  intros H. unfold sub_dt, frame_dt.
  apply nan_div_l, Math_min_nan_l, nan_div_l, nan_sub_l, H.
Qed.

(** X8: a frame whose timestamp is NaN, delivered to a running component
    that has an anchor, leaves every field of the state NaN. *)
Theorem nan_timestamp_poisons_state {M : JSMath} {N : JSNumber}
  (t last : float) (a : App) :
  lastTimeRef a = Some last -> isRunning a = true -> is_nan t = true ->
  state (update t a) = nan_state.
Proof.
  intros Hl Hr Ht. unfold update. rewrite Hl, Hr. cbn [state].
  unfold integrate, subSteps. rewrite for_loop_last.
  apply rk4_nan_step, sub_dt_nan, Ht.
Qed.

Lemma nan_timestamp_poisons_state_witness :
  lastTimeRef (mkApp INITIAL_CONFIG INITIAL_STATE true [] (Some 16))
  = Some 16
  /\ state (update (M := taylorMath) (N := nullNumber) nan
              (mkApp INITIAL_CONFIG INITIAL_STATE true [] (Some 16)))
     = nan_state.
Proof.
  split; [reflexivity|].
  apply (nan_timestamp_poisons_state (M := taylorMath) (N := nullNumber)
           nan 16); reflexivity.
Defined.

Lemma integrate_nan_clock {M : JSMath} st cfg subDt :
  is_nan (time st) = true -> is_nan (time (integrate st cfg subDt)) = true.
Proof.
  unfold integrate.
  apply (for_loop_invariant (fun s => is_nan (time s) = true)).
  intros x Hx. unfold rk4. cbn [time]. apply nan_add_l, Hx.
Qed.

Lemma update_nan_clock {M : JSMath} {N : JSNumber} t a :
  is_nan (time (state a)) = true ->
  history (update t a) = history a
  /\ is_nan (time (state (update t a))) = true.
Proof.
  intros H. unfold update.
  destruct (lastTimeRef a) as [last|]; [destruct (isRunning a)|];
    cbn [history state]; try (split; [reflexivity|exact H]).
  pose proof (integrate_nan_clock (state a) (config a) (sub_dt t last) H)
    as Hn.
  split; [|exact Hn]. unfold crossed_bucket.
  rewrite ltb_nan_r; [reflexivity|].
  apply Math_floor_nan, nan_mul_l, Hn.
Qed.

(** X9: once the clock is NaN no frame ever pushes a history point again,
    and the clock stays NaN (only a reset ends this). *)
Theorem nan_clock_freezes_history {M : JSMath} {N : JSNumber}
  (ts : list float) (a : App) :
  is_nan (time (state a)) = true ->
  history (frames ts a) = history a
  /\ is_nan (time (state (frames ts a))) = true.
Proof.
  revert a. induction ts as [|t ts IH]; intros a H.
  - split; [reflexivity|exact H].
  - rewrite frames_cons. destruct (update_nan_clock t a H) as [Hh Hn].
    destruct (IH (update t a) Hn) as [I1 I2].
    split; [rewrite I1; exact Hh|exact I2].
Qed.

Lemma nan_clock_freezes_history_witness :
  is_nan (time nan_state) = true
  /\ history (frames (M := taylorMath) (N := nullNumber) [0; 16; 1000]
                (mkApp INITIAL_CONFIG nan_state true [] (Some 0))) = [].
Proof.
  split; [reflexivity|].
  apply (nan_clock_freezes_history (M := taylorMath) (N := nullNumber)
           [0; 16; 1000] (mkApp INITIAL_CONFIG nan_state true [] (Some 0))).
  reflexivity.
Defined.

(** ** A repeated timestamp *)

Lemma sub_dt_same t : is_finite t = true -> sub_dt t t = 0.
Proof.
  intros H. unfold sub_dt, frame_dt. rewrite (sub_self t H). reflexivity.
Qed.

Lemma integrate_zero_clock {M : JSMath} st cfg :
  is_neg_zero (time st) = false -> time (integrate st cfg 0) = time st.
Proof.
  intros H. unfold integrate.
  apply (for_loop_invariant (fun s => time s = time st)); [|reflexivity].
  intros x Hx. unfold rk4. cbn [time]. rewrite Hx.
  apply add_zero_keep; [exact H|reflexivity].
Qed.

(** X10: a frame that repeats the anchor's (finite) timestamp integrates
    with a zero step: the clock stays where it is (unless it is [-0]) and no
    history point is pushed. *)
Theorem repeated_timestamp_keeps_clock {M : JSMath} {N : JSNumber}
  (t : float) (a : App) :
  lastTimeRef a = Some t -> is_finite t = true ->
  is_neg_zero (time (state a)) = false ->
  time (state (update t a)) = time (state a)
  /\ history (update t a) = history a
  /\ lastTimeRef (update t a) = Some t.
Proof.
  intros Hl Ht Hz. unfold update. rewrite Hl.
  destruct (isRunning a); cbn [state history lastTimeRef];
    [|repeat split].
  rewrite (sub_dt_same t Ht).
  pose proof (integrate_zero_clock (state a) (config a) Hz) as E.
  split; [exact E|]. split; [|reflexivity].
  unfold crossed_bucket. rewrite E, ltb_irrefl. reflexivity.
Qed.

Lemma repeated_timestamp_keeps_clock_witness :
  is_finite 16 = true
  /\ time (state (update (M := taylorMath) (N := nullNumber) 16
                    (mkApp INITIAL_CONFIG INITIAL_STATE true [] (Some 16))))
     = 0.
Proof.
  split; [reflexivity|].
  apply (repeated_timestamp_keeps_clock (M := taylorMath) (N := nullNumber)
           16 (mkApp INITIAL_CONFIG INITIAL_STATE true [] (Some 16)));
    reflexivity.
Defined.

(** ** The evaluator and the clock *)

(** X11: reversing both angular velocities leaves the two Lagrangian
    accelerations exactly as they are (the velocities enter them only as
    squares); only the returned velocities and the drag terms change
    sign. *)
Theorem accelerations_even_in_velocity {M : JSMath} (cfg : PendulumConfig)
  (th1 om1 th2 om2 : float) :
  derivatives [th1; - om1; th2; - om2] cfg =
  [ - om1;
    spec_a1 cfg th1 om1 th2 om2 - damping cfg * (- om1);
    - om2;
    spec_a2 cfg th1 om1 th2 om2 - damping cfg * (- om2) ].
Proof.
  destruct cfg. unfold derivatives, spec_a1, spec_a2, spec_den, spec_delta, sq.
  cbn [idx nth L1 L2 m1 m2 g damping]. rewrite !neg_mul_neg. reflexivity.
Qed.

(** X12: the clock is decoupled from the dynamics: after any sequence of
    steps, each with its own config and [dt], it is the initial clock plus
    the [dt]s added in turn, whatever the channels did. *)
Theorem clock_decoupled {M : JSMath}
  (steps : list (PendulumConfig * float)) (st : PendulumState) :
  time (fold_left (fun s p => rk4 s (fst p) (snd p)) steps st)
  = fold_left (fun t p => t + snd p) steps (time st).
Proof.
  revert st. induction steps as [|[cfg dt] steps IH]; intros st;
    [reflexivity|].
  cbn [fold_left fst snd]. rewrite IH. reflexivity.
Qed.

(** ** The energy read-out *)

Section HalfBounds.
#[local] Open Scope Z_scope.

(** Halving cannot overflow. *)
Lemma SFmul_half_finite sx mx ex :
  SpecFloat.valid_binary prec emax (S754_finite sx mx ex) = true ->
  sf_is_finite
    (SFmul prec emax (S754_finite false 4503599627370496 (-53))
       (S754_finite sx mx ex)) = true.
Proof.
  intros Hv. destruct (valid_finite_bounds _ _ _ Hv) as [Hd He].
  cbn [SFmul]. apply binary_round_aux_finite; [lia|lia|].
  assert (D : Zdigits2 (Zpos (4503599627370496 * mx))
              <= 52 + Zdigits2 (Zpos mx)).
  { apply Zdigits2_le; [lia|pose proof (Zdigits2_nonneg (Zpos mx)); lia|].
    pose proof (Zdigits2_gt (Zpos mx) ltac:(lia)) as G.
    rewrite Z.pow_add_r by (try apply Zdigits2_nonneg; lia).
    rewrite Pos2Z.inj_mul. change (Zpos 4503599627370496) with (2 ^ 52).
    apply Z.mul_lt_mono_pos_l; [reflexivity|exact G]. }
  lia.
Qed.

(** The product of a non-negative mantissa rounds to a value that is not
    below zero. *)
Lemma binary_round_aux_nonneg m e l :
  0 <= m ->
  SFleb (S754_zero false) (binary_round_aux prec emax false m e l) = true.
Proof.
  intros Hm. unfold binary_round_aux.
  destruct (shr_fexp_spec m e l Hm) as (P1 & _ & _).
  destruct (shr_fexp prec emax m e l) as [mrs' e'].
  cbn [fst snd] in P1.
  pose proof (round_nearest_even_bounds (shr_m mrs') (loc_of_shr_record mrs'))
    as R.
  set (m1 := round_nearest_even (shr_m mrs') (loc_of_shr_record mrs')) in *.
  assert (Hm1 : 0 <= m1) by lia.
  destruct (shr_fexp_spec m1 e' loc_Exact Hm1) as (Q1 & _ & _).
  destruct (shr_fexp prec emax m1 e' loc_Exact) as [mrs'' e''].
  cbn [fst snd] in Q1.
  destruct (shr_m mrs'') as [|p|p]; [reflexivity| |lia].
  destruct (e'' <=? emax - prec); reflexivity.
Qed.

End HalfBounds.

Lemma finite_half x : is_finite x = true -> is_finite (0.5 * x) = true.
Proof.
  intros Hx. rewrite is_finite_spec in Hx. rewrite is_finite_spec, mul_spec.
  change (Prim2SF 0.5) with (S754_finite false 4503599627370496 (-53)%Z).
  pose proof (Prim2SF_valid x) as V.
  destruct (Prim2SF x) as [s|s| |s m e]; try discriminate Hx.
  - reflexivity.
  - apply SFmul_half_finite, V.
Qed.

Lemma square_of_zero {P : JSPow} z :
  es_square_zero P -> is_zero z = true -> exponentiate z 2 = 0.
Proof.
  intros [H0 H1] Hz. destruct (zero_cases z Hz) as [-> | ->]; assumption.
Qed.

(** X13: at a standstill the kinetic energy is zero: with both angular
    velocities a zero, finite lengths and masses whose product [2*L1*L2]
    is finite, and a finite [Math.cos(theta1 - theta2)], [ke] is a zero. *)
Theorem kinetic_energy_at_standstill {M : JSMath} {P : JSPow}
  (cfg : PendulumConfig) (st : PendulumState) :
  es_square_zero P ->
  is_zero (omega1 st) = true -> is_zero (omega2 st) = true ->
  is_finite (L1 cfg) = true -> is_finite (L2 cfg) = true ->
  is_finite (m1 cfg) = true -> is_finite (m2 cfg) = true ->
  is_finite (2 * L1 cfg * L2 cfg) = true ->
  is_finite (Math_cos (theta1 st - theta2 st)) = true ->
  is_zero (ke (energy cfg st)) = true.
Proof.
  destruct cfg as [l1 l2 p1 p2 gr dmp]. destruct st as [t1 w1 t2 w2 tm].
  cbn [omega1 omega2 theta1 theta2 L1 L2 m1 m2].
  intros HP Hw1 Hw2 Hl1 Hl2 Hp1 Hp2 Hll Hc.
  unfold energy. cbn [ke].
  rewrite (square_of_zero (l1 * w1) HP) by (apply finite_mul_zero; assumption).
  rewrite (square_of_zero (l2 * w2) HP) by (apply finite_mul_zero; assumption).
  assert (Z0 : is_zero 0 = true) by reflexivity.
  apply zero_add_zero.
  - apply finite_mul_zero; [apply finite_half, Hp1|exact Z0].
  - apply finite_mul_zero; [apply finite_half, Hp2|].
    apply zero_add_zero; [reflexivity|].
    apply zero_mul_finite; [|exact Hc].
    apply zero_mul_finite; [|apply zero_is_finite, Hw2].
    apply finite_mul_zero; assumption.
Qed.

Lemma kinetic_energy_at_standstill_witness :
  es_square_zero squarePow
  /\ is_finite (2 * L1 INITIAL_CONFIG * L2 INITIAL_CONFIG) = true
  /\ is_zero (ke (energy (M := taylorMath) (P := squarePow)
                    INITIAL_CONFIG INITIAL_STATE)) = true.
Proof.
  split; [split; reflexivity|]. split; [reflexivity|].
  apply (kinetic_energy_at_standstill (M := taylorMath) (P := squarePow));
    try (split; reflexivity); vm_compute; reflexivity.
Defined.

(** ** The energy bars *)

Lemma SFcompare_antisym x y :
  SFcompare y x = option_map CompOpp (SFcompare x y).
Proof.
  destruct x as [[|]|[|]| |[|] mx ex], y as [[|]|[|]| |[|] my ey];
    cbn [SFcompare option_map CompOpp]; try reflexivity.
  - rewrite (Z.compare_antisym ex ey).
    destruct (ex ?= ey)%Z; cbn [CompOpp]; try reflexivity.
    do 2 f_equal. symmetry. exact (Pos.compare_cont_antisym mx my Eq).
  - rewrite (Z.compare_antisym ex ey).
    destruct (ex ?= ey)%Z; cbn [CompOpp]; try reflexivity.
    f_equal. symmetry. exact (Pos.compare_cont_antisym mx my Eq).
Qed.

Lemma ltb_leb x y : (x <? y) = true -> (x <=? y) = true.
Proof.
  rewrite ltb_spec, leb_spec. unfold SFltb, SFleb.
  destruct (SFcompare (Prim2SF x) (Prim2SF y)) as [[| |]|];
    intros H; try discriminate H; reflexivity.
Qed.

Lemma leb_not_nan_r x y : (x <=? y) = true -> is_nan y = false.
Proof.
  rewrite leb_spec, is_nan_spec. unfold SFleb.
  by_class y; try reflexivity. by_class x; intros H; discriminate H.
Qed.

(** Of two doubles that are not NaN, neither below the other, each is at
    most the other. *)
Lemma not_lt_leb x y :
  (x <? y) = false -> (y <? x) = false ->
  is_nan x = false -> is_nan y = false -> (y <=? x) = true.
Proof.
  rewrite !ltb_spec, leb_spec, !is_nan_spec. unfold SFltb, SFleb.
  rewrite (SFcompare_antisym (Prim2SF x) (Prim2SF y)).
  destruct (SFcompare (Prim2SF x) (Prim2SF y)) as [[| |]|] eqn:E;
    cbn [option_map CompOpp]; intros H1 H2 N1 N2;
    try discriminate H1; try discriminate H2; try reflexivity.
  exfalso. destruct (Prim2SF x) as [?|?| |? ? ?] eqn:Ex;
    try discriminate N1;
    destruct (Prim2SF y) as [?|?| |? ? ?] eqn:Ey;
    try discriminate N2; discriminate E.
Qed.

Lemma abs_twice_nonneg e :
  is_nan e = false -> (0 <=? abs e * 2) = true.
Proof.
  intros H. rewrite is_nan_spec in H.
  rewrite leb_spec, mul_spec, abs_spec.
  change (Prim2SF 0) with (S754_zero false).
  change (Prim2SF 2) with (S754_finite false 4503599627370496 (-51)%Z).
  destruct (Prim2SF e) as [s|s| |s m ex]; try discriminate H;
    try reflexivity.
  unfold SF64mul. cbn [SFabs SFmul xorb].
  apply binary_round_aux_nonneg. lia.
Qed.

(** X14: the width of an energy bar is NaN exactly when the energy is, and
    otherwise lies between 0 and 100 (percent), however large the energy. *)
Theorem bar_width_bounds (e : float) :
  if is_nan e then is_nan (bar_width e) = true
  else (0 <=? bar_width e) && (bar_width e <=? 100) = true.
Proof.
  unfold bar_width. destruct (is_nan e) eqn:Ne.
  - unfold Math_min.
    rewrite (nan_mul_l (abs e) 2) by
      (rewrite is_nan_spec, abs_spec; rewrite is_nan_spec in Ne;
       by_class e; try discriminate Ne; reflexivity).
    reflexivity.
  - pose proof (abs_twice_nonneg e Ne) as P.
    pose proof (leb_not_nan_r _ _ P) as Ny.
    set (w := abs e * 2) in *. unfold Math_min.
    change (is_nan 100) with false. rewrite Ny. cbn [orb].
    change (is_zero 100) with false. cbn [andb].
    destruct (100 <? w) eqn:L1; [reflexivity|].
    destruct (w <? 100) eqn:L2.
    + rewrite P, (ltb_leb _ _ L2). reflexivity.
    + rewrite P. cbn [andb].
      apply (not_lt_leb 100 w L1 L2); [reflexivity|exact Ny].
Qed.

(** ** The trace of the second bob *)

Lemma renders_cons {M : JSMath} {D : DOMCanvas} cfg st w h rs c :
  renders ((cfg, st, w, h) :: rs) c = renders rs (draw cfg st w h c).
Proof. reflexivity. Qed.

Lemma shift_push_length {A : Type} (l : list A) (b : A) :
  (length l <= 200)%nat ->
  (length (if (200 <? length (l ++ [b]))%nat then shift (l ++ [b])
           else l ++ [b]) <= 200)%nat.
Proof.
  intros H. destruct (200 <? length (l ++ [b]))%nat eqn:E.
  - unfold shift. destruct l as [|a l]; cbn [app tl length] in *; [lia|].
    rewrite length_app. cbn [length]. lia.
  - apply Nat.ltb_ge in E. exact E.
Qed.

Lemma shift_push_last {A : Type} (l : list A) (b d : A) :
  last (if (200 <? length (l ++ [b]))%nat then shift (l ++ [b])
        else l ++ [b]) d = b.
Proof.
  destruct (200 <? length (l ++ [b]))%nat eqn:E.
  - apply Nat.ltb_lt in E. unfold shift.
    destruct l as [|a l]; cbn [app tl length] in *; [lia|].
    apply last_last.
  - apply last_last.
Qed.

Lemma draw_trace_bound {M : JSMath} {D : DOMCanvas} cfg st w h c :
  (length (pathRef c) <= 200)%nat ->
  (length (pathRef (draw cfg st w h c)) <= 200)%nat.
Proof.
  intros H. unfold draw. cbn [pathRef].
  apply shift_push_length.
  destruct (negb (width c =? w) || negb (height c =? h));
    cbn [pathRef length]; [lia|exact H].
Qed.

(** X15: the trace of the second bob never holds more than 200 points,
    whatever is rendered and however the canvas is resized in between. *)
Theorem trace_bounded {M : JSMath} {D : DOMCanvas}
  (rs : list (PendulumConfig * PendulumState * float * float))
  (c : Canvas) :
  (length (pathRef c) <= 200)%nat ->
  (length (pathRef (renders rs c)) <= 200)%nat.
Proof.
  revert c. induction rs as [|[[[cfg st] w] h] rs IH]; intros c H.
  - exact H.
  - rewrite renders_cons. apply IH, draw_trace_bound, H.
Qed.

Lemma trace_bounded_witness :
  (length (pathRef blankCanvas) <= 200)%nat
  /\ (length (pathRef
        (renders (M := taylorMath) (D := floorCanvas)
           [(INITIAL_CONFIG, INITIAL_STATE, 300, 150);
            (INITIAL_CONFIG, rest_state, 640, 480)]%float blankCanvas))
      <= 200)%nat.
Proof.
  split; [cbn; lia|].
  apply (trace_bounded (M := taylorMath) (D := floorCanvas)). cbn; lia.
Defined.

(** X16: after every render the trace ends at the second bob as that render
    drew it, about the pivot of the canvas as the render left it; the
    eviction of line 41 never removes the point just pushed. *)
Theorem trace_ends_at_bob {M : JSMath} {D : DOMCanvas}
  (cfg : PendulumConfig) (st : PendulumState) (w h : float) (c : Canvas)
  (d : Point.t) :
  let c' := draw cfg st w h c in
  last (pathRef c') d = bob2 (width c' / 2) (height c' / 3) cfg st.
Proof.
  cbv zeta. unfold draw. cbn [pathRef width height].
  apply shift_push_last.
Qed.

Lemma draw_resized {M : JSMath} {D : DOMCanvas} cfg st w h c :
  (width c =? w) = false ->
  width (draw cfg st w h c) = canvas_dim w
  /\ length (pathRef (draw cfg st w h c)) = 1%nat.
Proof.
  intros H. unfold draw. rewrite H. cbn [negb orb width pathRef app length].
  split; reflexivity.
Qed.

(** X17: when the bounding rectangle's width is one the bitmap cannot take
    (the stored width differs from the requested one, as for a fractional
    CSS width), every render finds the sizes different, resizes and empties
    the trace: after any number of renders the trace holds the one point
    just drawn. *)
Theorem unstorable_width_restarts_trace {M : JSMath} {D : DOMCanvas}
  (w : float)
  (rs : list (PendulumConfig * PendulumState * float * float))
  (c : Canvas) :
  (canvas_dim w =? w) = false ->
  (width c =? w) = false ->
  rs <> [] ->
  Forall (fun r => snd (fst r) = w) rs ->
  length (pathRef (renders rs c)) = 1%nat.
Proof.
  intros Hd Hc Hn Hall. revert c Hc.
  induction rs as [|[[[cfg st] rw] h] rs IH]; intros c Hc;
    [contradiction Hn; reflexivity|].
  rewrite renders_cons.
  pose proof (Forall_inv Hall) as Hw. cbn [fst snd] in Hw. subst rw.
  destruct (draw_resized cfg st w h c Hc) as [W L].
  destruct rs as [|r rs'].
  - exact L.
  - apply IH.
    + discriminate.
    + exact (Forall_inv_tail Hall).
    + rewrite W. exact Hd.
Qed.

Lemma unstorable_width_restarts_trace_witness :
  length (pathRef
    (renders (M := taylorMath) (D := floorCanvas)
       [(INITIAL_CONFIG, INITIAL_STATE, 300.5, 150);
        (INITIAL_CONFIG, rest_state, 300.5, 150);
        (INITIAL_CONFIG, fast_state, 300.5, 150)] blankCanvas)) = 1%nat.
Proof.
  apply (unstorable_width_restarts_trace (M := taylorMath) (D := floorCanvas)
           300.5).
  - vm_compute. reflexivity.
  - vm_compute. reflexivity.
  - discriminate.
  - repeat constructor.
Defined.

(** X18: a pendulum hanging straight down is drawn on the vertical through
    the pivot: both bobs get the pivot's x coordinate, for arms whose scaled
    lengths are finite and a pivot abscissa other than [-0]. *)
Theorem hanging_bobs_under_pivot {M : JSMath}
  (cx cy : float) (cfg : PendulumConfig) (st : PendulumState) :
  es_trig M ->
  theta1 st = 0 -> theta2 st = 0 ->
  is_finite (L1 cfg * scale) = true ->
  is_finite (L2 cfg * scale) = true ->
  is_neg_zero cx = false ->
  Point.x (bob1 cx cy cfg st) = cx /\ Point.x (bob2 cx cy cfg st) = cx.
Proof.
  intros [Hs _] H1 H2 F1 F2 Hx. unfold bob2, bob1. cbn [Point.x].
  rewrite H1, H2, Hs.
  assert (E : cx + L1 cfg * scale * 0 = cx).
  { apply add_zero_keep; [exact Hx|].
    apply finite_mul_zero; [exact F1|reflexivity]. }
  rewrite E. split; [reflexivity|].
  apply add_zero_keep; [exact Hx|].
  apply finite_mul_zero; [exact F2|reflexivity].
Qed.

Lemma hanging_bobs_under_pivot_witness :
  Point.x (bob1 (M := taylorMath) 150 50 INITIAL_CONFIG rest_state) = 150
  /\ Point.x (bob2 (M := taylorMath) 150 50 INITIAL_CONFIG rest_state) = 150.
Proof.
  apply (hanging_bobs_under_pivot (M := taylorMath) 150 50 INITIAL_CONFIG
           rest_state);
    try reflexivity.
  exact taylorMath_es_trig.
Defined.

(** ** The sliders *)

Ltac by_name n :=
  repeat match goal with
         | |- context [String.eqb n ?s] =>
             destruct (String.eqb_spec n s); [subst n|]
         end.

(** X19: changes of two different sliders can be applied in either order. *)
Theorem handleChange_commute {Pf : JSParse}
  (n1 v1 n2 v2 : String.string) (c : PendulumConfig) :
  n1 <> n2 ->
  handleChange n1 v1 (handleChange n2 v2 c)
  = handleChange n2 v2 (handleChange n1 v1 c).
Proof.
  intros H. unfold handleChange.
  generalize (parseFloat v1) (parseFloat v2). intros x1 x2.
  destruct c as [l1 l2 p1 p2 gr dmp]. unfold set_field.
  by_name n1; by_name n2; cbn; try reflexivity; contradiction H; reflexivity.
Qed.

Lemma handleChange_commute_witness :
  handleChange (Pf := nullParse) "L1"%string "2"%string
    (handleChange (Pf := nullParse) "g"%string "5"%string INITIAL_CONFIG)
  = handleChange (Pf := nullParse) "g"%string "5"%string
      (handleChange (Pf := nullParse) "L1"%string "2"%string INITIAL_CONFIG).
Proof.
  apply (handleChange_commute (Pf := nullParse)). discriminate.
Defined.

(** X20: of two changes of the same slider the later one alone shows: the
    config is as if the earlier one had not happened. *)
Theorem handleChange_overwrites {Pf : JSParse}
  (n v1 v2 : String.string) (c : PendulumConfig) :
  handleChange n v2 (handleChange n v1 c) = handleChange n v2 c.
Proof.
  unfold handleChange.
  generalize (parseFloat v1) (parseFloat v2). intros x1 x2.
  destruct c as [l1 l2 p1 p2 gr dmp]. unfold set_field.
  by_name n; cbn; reflexivity.
Qed.

(** ** NaN in the config and in the state *)

Lemma nan_div_r a b : is_nan b = true -> is_nan (a / b) = true.
Proof.
  intros H. to_spec_in H. to_spec.
  by_class b; try discriminate H; by_class a; reflexivity.
Qed.

Lemma nan_sub_r a b : is_nan b = true -> is_nan (a - b) = true.
Proof.
  intros H. to_spec_in H. to_spec.
  by_class b; try discriminate H; by_class a; reflexivity.
Qed.

Lemma nan_opp a : is_nan a = true -> is_nan (- a) = true.
Proof.
  intros H. rewrite is_nan_spec in *. rewrite opp_spec.
  by_class a; try discriminate H; reflexivity.
Qed.

(** A NaN in any field of the config reaches the first acceleration, from
    every state vector. *)
Lemma derivatives_nan_config {M : JSMath} y cfg :
  is_nan (L1 cfg) || is_nan (L2 cfg) || is_nan (m1 cfg) || is_nan (m2 cfg)
  || is_nan (g cfg) || is_nan (damping cfg) = true ->
  is_nan (idx (derivatives y cfg) 1) = true.
Proof.
  destruct cfg as [l1 l2 p1 p2 gr dmp]. cbn [L1 L2 m1 m2 g damping].
  unfold derivatives. cbn [idx nth]. intros H.
  destruct (is_nan l1) eqn:E1.
  { apply nan_sub_l, nan_div_r, nan_mul_l, E1. }
  destruct (is_nan l2) eqn:E2.
  { apply nan_sub_l, nan_div_l, nan_sub_r, nan_mul_r, nan_add_l, nan_mul_r,
      E2. }
  destruct (is_nan p1) eqn:E3.
  { apply nan_sub_l, nan_div_r, nan_mul_r, nan_sub_l, nan_add_l, nan_mul_r,
      E3. }
  destruct (is_nan p2) eqn:E4.
  { apply nan_sub_l, nan_div_r, nan_mul_r, nan_sub_r, nan_mul_l, E4. }
  destruct (is_nan gr) eqn:E5.
  { apply nan_sub_l, nan_div_l, nan_sub_l, nan_sub_l, nan_mul_l, nan_mul_l,
      nan_opp, E5. }
  cbn [orb] in H. apply nan_sub_r, nan_mul_l, H.
Qed.

Lemma integrate_omega1_nan {M : JSMath} {N : JSNumber} st cfg subDt :
  (forall y, is_nan (idx (derivatives y cfg) 1) = true) ->
  is_nan (omega1 (integrate st cfg subDt)) = true.
Proof.
  intros H. unfold integrate, subSteps. rewrite for_loop_last.
  apply rk4_omega1_nan, H.
Qed.

Lemma set_field_nan n c :
  In n slider_names ->
  let c' := set_field n nan c in
  is_nan (L1 c') || is_nan (L2 c') || is_nan (m1 c') || is_nan (m2 c')
  || is_nan (g c') || is_nan (damping c') = true.
Proof.
  intros H. cbv zeta. destruct c as [l1 l2 p1 p2 gr dmp].
  unfold slider_names in H. cbn [In] in H.
  destruct H as [H|[H|[H|[H|[H|[H|[]]]]]]]; subst n;
    cbn [set_field String.eqb Ascii.eqb Bool.eqb L1 L2 m1 m2 g damping];
    cbn; rewrite ?orb_true_r; reflexivity.
Qed.

(** X21: a slider value that does not parse as a number (so that
    [parseFloat] gives NaN) is stored as it is, and the next frame of a
    running simulation turns the first angular velocity into NaN, whatever
    the state and the timestamp. *)
Theorem unparsed_slider_poisons_state {M : JSMath} {N : JSNumber}
  {Pf : JSParse} (name value : String.string) (t last : float) (a : App) :
  In name slider_names ->
  is_nan (parseFloat value) = true ->
  isRunning a = true ->
  lastTimeRef a = Some last ->
  is_nan (omega1 (state
    (run [SetConfig (handleChange name value (config a)); Frame t] a)))
  = true.
Proof.
  intros Hn Hv Hr Hl.
  unfold run. cbn [fold_left handle]. unfold update, setConfig.
  cbn [lastTimeRef isRunning config state]. rewrite Hl, Hr. cbn [state].
  apply integrate_omega1_nan. intros y.
  apply derivatives_nan_config. unfold handleChange.
  rewrite (nan_is_nan _ Hv). apply (set_field_nan name (config a) Hn).
Qed.

Lemma unparsed_slider_poisons_state_witness :
  is_nan (omega1 (state
    (run (M := taylorMath) (N := nullNumber)
       [SetConfig (handleChange (Pf := nullParse) "g"%string ""%string
                     INITIAL_CONFIG); Frame 32]
       (mkApp INITIAL_CONFIG INITIAL_STATE true [] (Some 16)))))
  = true.
Proof.
  apply (unparsed_slider_poisons_state (M := taylorMath) (N := nullNumber)
           (Pf := nullParse) "g"%string ""%string 32 16
           (mkApp INITIAL_CONFIG INITIAL_STATE true [] (Some 16)));
    try reflexivity.
  cbn. tauto.
Defined.

Lemma rk4_poisoned {M : JSMath} st cfg dt :
  poisoned st = true -> poisoned (rk4 st cfg dt) = true.
Proof.
  unfold poisoned, rk4.
  cbn [theta1 omega1 theta2 omega2 map_i map_from idx nth].
  intros H.
  destruct (is_nan (theta1 st)) eqn:E1.
  { rewrite (nan_add_l _ _ E1). reflexivity. }
  destruct (is_nan (omega1 st)) eqn:E2.
  { rewrite (nan_add_l (omega1 st) _ E2), ?orb_true_r. reflexivity. }
  destruct (is_nan (theta2 st)) eqn:E3.
  { rewrite (nan_add_l (theta2 st) _ E3), ?orb_true_r. reflexivity. }
  cbn [orb] in H.
  rewrite (nan_add_l (omega2 st) _ H), ?orb_true_r. reflexivity.
Qed.

Lemma handle_poisoned {M : JSMath} {N : JSNumber} e a :
  no_reset e = true -> poisoned (state a) = true ->
  poisoned (state (handle e a)) = true.
Proof.
  intros He H. destruct e as [t| |c|b]; try discriminate He;
    cbn [handle setConfig setIsRunning state]; try exact H.
  unfold update. destruct (lastTimeRef a); [|exact H].
  destruct (isRunning a); [|exact H]. cbn [state].
  unfold integrate. apply for_loop_invariant; [|exact H].
  intros x Hx. apply rk4_poisoned, Hx.
Qed.

(** X22: a NaN among the angles and velocities stays: no frame, slider
    change or pause removes it, in any order and number; only a reset
    does. *)
Theorem poisoned_until_reset {M : JSMath} {N : JSNumber}
  (es : list Event) (a : App) :
  forallb no_reset es = true ->
  poisoned (state a) = true ->
  poisoned (state (run es a)) = true.
Proof.
  revert a. induction es as [|e es IH]; intros a He H; [exact H|].
  cbn [forallb] in He. apply andb_true_iff in He. destruct He as [He Hes].
  rewrite run_cons. apply IH; [exact Hes|].
  apply handle_poisoned; assumption.
Qed.

Lemma poisoned_until_reset_witness :
  poisoned (state
    (run (M := taylorMath) (N := nullNumber)
       [Frame 16; SetConfig light_config; Frame 32; SetIsRunning false]
       (mkApp INITIAL_CONFIG nan_state true [] (Some 0)))) = true.
Proof.
  apply (poisoned_until_reset (M := taylorMath) (N := nullNumber));
    reflexivity.
Defined.

(** ** The run button *)

Lemma frames_paused {M : JSMath} {N : JSNumber} ts :
  forall a, isRunning a = false ->
  state (frames ts a) = state a /\ history (frames ts a) = history a
  /\ config (frames ts a) = config a /\ isRunning (frames ts a) = false.
Proof.
  induction ts as [|t ts IH]; intros a H.
  - repeat split. exact H.
  - rewrite frames_cons, (update_paused t a H).
    apply (IH {| config := config a; state := state a; isRunning := false;
                 history := history a; lastTimeRef := Some t |}).
    reflexivity.
Qed.

(** X23: pressing the run button of a running simulation, letting any
    number of frames pass and pressing it again resumes from exactly the
    state, history and config of the moment of the first press. *)
Theorem pause_resume_keeps_state {M : JSMath} {N : JSNumber}
  (ts : list float) (a : App) :
  isRunning a = true ->
  let a' := toggleRunning (frames ts (toggleRunning a)) in
  state a' = state a /\ history a' = history a /\ config a' = config a
  /\ isRunning a' = true.
Proof.
  intros H. cbv zeta.
  assert (P : isRunning (toggleRunning a) = false).
  { unfold toggleRunning. cbn [setIsRunning isRunning]. rewrite H.
    reflexivity. }
  destruct (frames_paused ts _ P) as (S1 & S2 & S3 & S4).
  set (b := frames ts (toggleRunning a)) in *.
  unfold toggleRunning at 1 2 3 4.
  cbn [setIsRunning state history config isRunning].
  rewrite S1, S2, S3, S4. repeat split.
Qed.

Lemma pause_resume_keeps_state_witness :
  state (toggleRunning
           (frames (M := taylorMath) (N := nullNumber) [16; 32; 48]
              (toggleRunning
                 (mkApp INITIAL_CONFIG fast_state true [] (Some 0)))))
  = fast_state.
Proof.
  apply (pause_resume_keeps_state (M := taylorMath) (N := nullNumber)
           [16; 32; 48] (mkApp INITIAL_CONFIG fast_state true [] (Some 0))).
  reflexivity.
Defined.
